(** * Developer-tooling scripts: launch-configuration synchronizer and
      structure-document generator

    A shallow embedding of [scripts/generate_vscode_debug_launches.py] and
    [scripts/generate_structure_doc.py], and the properties their
    specification states about them.

    Conventions of the embedding.
    - A Python [str] is a [string]: a sequence of 8-bit characters (the UTF-8
      bytes of the text).  [str.lower] acts on the letters A-Z, comparison is
      lexicographic on character codes.
    - A value produced by [json.load] is a [json] tree; a [dict] keeps its
      insertion order, so it is an association list.
    - The [json] module itself is an interface ([JsonModule]): the scripts
      only call [json.load] and [json.dump].
    - A raised exception is the [Raise] case of [result]; [exit(1)] raises
      [SystemExit 1], as it does in Python.
    - The file system is a tree of [node]s; a directory holds its entries in
      the order [os.listdir] returns them.  [os.path.join] is the POSIX one;
      permission and I/O failures are outside the model, except for the
      write of the structure document: the device that takes it is part of
      that script's world.
    - The [print] calls only matter through the expressions they evaluate,
      which are kept. *)

From Stdlib Require Import String Ascii List Bool Arith ZArith Lia.
From Stdlib Require Import Permutation Sorted.
Import ListNotations.

Set Warnings "-register-all".

Open Scope string_scope.
Open Scope list_scope.

(* ================================================================== *)
(** ** Python values, exceptions and string primitives *)
(* ================================================================== *)

Module Py.

(** What [json.load] returns. *)
Inductive json : Type :=
| JNull
| JBool (b : bool)
| JInt (z : Z)
| JFloat (lexeme : string)
| JStr (s : string)
| JArr (items : list json)
| JObj (fields : list (string * json)).

Inductive exn : Type :=
| JSONDecodeError
| KeyError (key : string)
| TypeError
| AttributeError
| NotADirectoryError
| FileExistsError
| IsADirectoryError
| OSError
| SystemExit (code : Z).

Inductive result (A : Type) : Type :=
| Ok (a : A)
| Raise (e : exn).
Arguments Ok {A} a.
Arguments Raise {A} e.

Definition bind {A B : Type} (r : result A) (k : A -> result B) : result B :=
  match r with
  | Ok a => k a
  | Raise e => Raise e
  end.

(** The status the interpreter exits with when an exception reaches the top
    level: the code of a [SystemExit], 1 for any other exception. *)
Definition exit_status (e : exn) : Z :=
  match e with
  | SystemExit code => code
  | _ => 1%Z
  end.

(** *** Strings *)

Definition map_chars (f : ascii -> ascii) : string -> string :=
  fix go (s : string) : string :=
    match s with
    | EmptyString => EmptyString
    | String c t => String (f c) (go t)
    end.

(** [s.replace(old, new)] for one-character [old] and [new]. *)
Definition replace (old new : ascii) (s : string) : string :=
  map_chars (fun c => if Ascii.eqb c old then new else c) s.

Definition lower_char (c : ascii) : ascii :=
  let n := nat_of_ascii c in
  if Nat.leb 65 n && Nat.leb n 90 then ascii_of_nat (n + 32) else c.

(** [s.lower()] *)
Definition lower (s : string) : string := map_chars lower_char s.

(** [needle in hay] *)
Fixpoint contains (needle hay : string) : bool :=
  String.prefix needle hay ||
  match hay with
  | EmptyString => false
  | String _ t => contains needle t
  end.

(** [s.startswith(p)] *)
Definition startswith (s p : string) : bool := String.prefix p s.

(** [s.endswith(suffix)] *)
Fixpoint endswith (s suffix : string) : bool :=
  String.eqb s suffix ||
  match s with
  | EmptyString => false
  | String _ t => endswith t suffix
  end.

(** [sep.join(lines)] is [String.concat sep lines]. *)
Definition join (sep : string) (lines : list string) : string :=
  String.concat sep lines.

Definition newline : string := String (ascii_of_nat 10) EmptyString.

(** *** Dictionaries *)

Fixpoint dict_get {V : Type} (key : string) (d : list (string * V)) : option V :=
  match d with
  | [] => None
  | (k, v) :: rest => if String.eqb k key then Some v else dict_get key rest
  end.

(** [d[key] = v]: the value is replaced where the key is, or the pair is
    appended. *)
Fixpoint dict_set {V : Type} (key : string) (v : V) (d : list (string * V))
  : list (string * V) :=
  match d with
  | [] => [(key, v)]
  | (k, v0) :: rest =>
      if String.eqb k key then (k, v) :: rest else (k, v0) :: dict_set key v rest
  end.

(** [x.get(key, default)]: only a [dict] has the method. *)
Definition py_get (x : json) (key : string) (default : json) : result json :=
  match x with
  | JObj fields =>
      match dict_get key fields with
      | Some v => Ok v
      | None => Ok default
      end
  | _ => Raise AttributeError
  end.

(** [x[key]] for a string [key]. *)
Definition py_getitem (x : json) (key : string) : result json :=
  match x with
  | JObj fields =>
      match dict_get key fields with
      | Some v => Ok v
      | None => Raise (KeyError key)
      end
  | _ => Raise TypeError
  end.

(** [x[key] = v] for a string [key]. *)
Definition py_setitem (x : json) (key : string) (v : json) : result json :=
  match x with
  | JObj fields => Ok (JObj (dict_set key v fields))
  | _ => Raise TypeError
  end.

(** The value under [key] when [x] is a dict that has the key. *)
Definition field (x : json) (key : string) : option json :=
  match x with
  | JObj fields => dict_get key fields
  | _ => None
  end.

Definition is_dict (x : json) : bool :=
  match x with
  | JObj _ => true
  | _ => false
  end.

(** [isinstance(x, str)] *)
Definition is_str (x : json) : bool :=
  match x with
  | JStr _ => true
  | _ => false
  end.

(** [len(x)] *)
Definition py_len (x : json) : result nat :=
  match x with
  | JStr s => Ok (String.length s)
  | JArr items => Ok (List.length items)
  | JObj fields => Ok (List.length fields)
  | _ => Raise TypeError
  end.

Fixpoint chars (s : string) : list json :=
  match s with
  | EmptyString => []
  | String c t => JStr (String c EmptyString) :: chars t
  end.

(** The items [for cfg in x] ranges over: the elements of a list, the keys
    of a dict, the characters of a string. *)
Definition py_iter (x : json) : result (list json) :=
  match x with
  | JArr items => Ok items
  | JObj fields => Ok (map (fun kv => JStr (fst kv)) fields)
  | JStr s => Ok (chars s)
  | _ => Raise TypeError
  end.

(** [[x for x in items if keep(x)]] where [keep] may raise. *)
Fixpoint filter_r {A : Type} (keep : A -> result bool) (items : list A)
  : result (list A) :=
  match items with
  | [] => Ok []
  | x :: rest =>
      bind (keep x) (fun b =>
      bind (filter_r keep rest) (fun kept =>
      Ok (if b then x :: kept else kept)))
  end.

End Py.

Import Py.

Notation "x <- e ;; k" := (bind e (fun x => k))
  (at level 61, e at next level, right associativity).

(** The two entry points of the [json] module the script uses.  [text] is
    what a file holds; [json_load] fails on text that is not JSON. *)
Class JsonModule : Type := {
  text : Type;
  json_load : text -> option json;
  json_dump : json -> text
}.

(* ================================================================== *)
(** ** The file system *)
(* ================================================================== *)

Module Fs.

Inductive node : Type :=
| File                                   (* a regular file *)
| Special                                (* neither a file nor a directory *)
| Dir (entries : list (string * node)).  (* in [os.listdir] order *)

Definition isdir (n : option node) : bool :=
  match n with
  | Some (Dir _) => true
  | _ => false
  end.

Definition isfile (n : option node) : bool :=
  match n with
  | Some File => true
  | _ => false
  end.

(** The node a name resolves to inside a directory. *)
Definition child (entries : list (string * node)) (name : string) : option node :=
  dict_get name entries.

(** [os.listdir(path)] *)
Definition listdir (n : node) : result (list string) :=
  match n with
  | Dir entries => Ok (map fst entries)
  | _ => Raise NotADirectoryError
  end.

(** The node at [os.path.join(path, name)], where [n] is the node at [path]. *)
Definition lookup (n : node) (name : string) : option node :=
  match n with
  | Dir entries => child entries name
  | _ => None
  end.

(** [os.path.join(a, b)] of [posixpath]. *)
Definition path_join (a b : string) : string :=
  if startswith b "/" then b
  else if String.eqb a "" || endswith a "/" then a ++ b
  else a ++ "/" ++ b.

(** A name a directory can hold: not empty, no separator in it. *)
Definition valid_name (name : string) : bool :=
  negb (String.eqb name "") && negb (contains "/" name).

Fixpoint distinct (names : list string) : bool :=
  match names with
  | [] => true
  | n :: rest => negb (existsb (String.eqb n) rest) && distinct rest
  end.

(** The invariant of a directory tree: in every directory the names are
    valid and pairwise distinct. *)
Fixpoint wf (n : node) : bool :=
  match n with
  | Dir entries =>
      forallb valid_name (map fst entries) &&
      distinct (map fst entries) &&
      forallb (fun e => wf (snd e)) entries
  | _ => true
  end.

End Fs.

Import Fs.

(* ================================================================== *)
(** ** scripts/generate_vscode_debug_launches.py *)
(* ================================================================== *)

Module Launch.

Section Script.

Context {J : JsonModule}.

(** What the script reads and writes: [.vscode/launch.json] ([None] when the
    file is absent) and the node at [build_path] ([None] when nothing is
    there). *)
Record world : Type := {
  launch_file : option text;
  build_path : option node
}.

Definition build_dir : string := "build/AthenaTests".

Definition backslash : ascii := ascii_of_nat 92.
Definition slash : ascii := ascii_of_nat 47.

Definition load (t : text) : result json :=
  match json_load t with
  | Some data => Ok data
  | None => Raise JSONDecodeError
  end.

Definition new_structure : json :=
  JObj [("version", JStr "0.2.0"); ("configurations", JArr [])].

(** Load or create launch.json. *)
Definition load_data (w : world) : result json :=
  match launch_file w with
  | Some t =>
      data <- load t ;;
      shown <- py_get data "configurations" (JArr []) ;;
      _ <- py_len shown ;;
      Ok data
  | None => Ok new_structure
  end.

Definition is_test_program (program : json) : bool :=
  if negb (is_str program) then false
  else
    match program with
    | JStr p =>
        let normalized := lower (replace backslash slash p) in
        contains (lower (replace backslash slash build_dir)) normalized
    | _ => false
    end.

(** The condition of the comprehension,
    [not is_test_program(cfg.get("program", ""))]. *)
Definition keeps (cfg : json) : result bool :=
  program <- py_get cfg "program" (JStr "") ;;
  Ok (negb (is_test_program program)).

Definition preserved_configs (data : json) : result (list json) :=
  configurations <- py_getitem data "configurations" ;;
  items <- py_iter configurations ;;
  filter_r keeps items.

(** [f.endswith(".exe") and os.path.isfile(os.path.join(build_path, f))] *)
Definition is_test_executable (dir : node) (f : string) : bool :=
  endswith f ".exe" && isfile (lookup dir f).

Definition test_executables (dir : node) (all_files : list string) : list string :=
  filter (is_test_executable dir) all_files.

Definition make_config (exe : string) : json :=
  let exe_path := replace backslash slash (path_join build_dir exe) in
  JObj [ ("name", JStr ("Debug " ++ exe));
         ("type", JStr "cppdbg");
         ("request", JStr "launch");
         ("program", JStr ("${workspaceFolder}/" ++ exe_path));
         ("args", JArr []);
         ("stopAtEntry", JBool false);
         ("cwd", JStr ("${workspaceFolder}/" ++ build_dir));
         ("environment", JArr []);
         ("externalConsole", JBool true);
         ("MIMode", JStr "gdb");
         ("setupCommands",
            JArr [ JObj [("text", JStr "-gdb-set new-console on")];
                   JObj [("text", JStr "-enable-pretty-printing")] ]);
         ("preLaunchTask", JStr "build") ].

Definition test_configs (executables : list string) : list json :=
  map make_config executables.

(** Everything the script does before it opens the file for writing: the
    value it is about to dump, or the exception that ends the run. *)
Definition new_data (w : world) : result json :=
  data <- load_data w ;;
  preserved <- preserved_configs data ;;
  match build_path w with
  | None => Raise (SystemExit 1)
  | Some dir =>
      all_files <- listdir dir ;;
      py_setitem data "configurations"
        (JArr (preserved ++ test_configs (test_executables dir all_files)))
  end.

(** [json.dump(data, f)] on launch.json opened for writing. *)
Definition write (data : json) (w : world) : world :=
  {| launch_file := Some (json_dump data); build_path := build_path w |}.

(** One run of the script: how it ends and the world it leaves. *)
Definition run (w : world) : result unit * world :=
  match new_data w with
  | Ok data => (Ok tt, write data w)
  | Raise e => (Raise e, w)
  end.

(** The status of the process after a run. *)
Definition status (r : result unit) : Z :=
  match r with
  | Ok _ => 0%Z
  | Raise e => exit_status e
  end.

(** *** Vocabulary of the specification *)

(** [needle] occurs in [hay]. *)
Definition substring_of (needle hay : string) : Prop :=
  exists pre post : string, hay = (pre ++ needle ++ post)%string.

(** A configuration is stale when it has a [program] string that references
    the build-output directory. *)
Definition references_build_dir (cfg : json) : bool :=
  match field cfg "program" with
  | Some program => is_test_program program
  | None => false
  end.

Definition preserved (cfg : json) : bool := negb (references_build_dir cfg).

(** The configurations the run finds: what iterating
    [data["configurations"]] yields. *)
Definition existing_configurations (w : world) (items : list json) : Prop :=
  exists data configurations,
    load_data w = Ok data /\
    py_getitem data "configurations" = Ok configurations /\
    py_iter configurations = Ok items.

(** The [configurations] list of the file a run wrote. *)
Definition written_configurations (w' : world) (configs : list json) : Prop :=
  exists fields,
    launch_file w' = Some (json_dump (JObj fields)) /\
    dict_get "configurations" fields = Some (JArr configs).

(** The executables a run discovers, in discovery order. *)
Definition discovered (w : world) (executables : list string) : Prop :=
  exists entries,
    build_path w = Some (Dir entries) /\
    executables = test_executables (Dir entries) (map fst entries).

(** The closing sentence of the regeneration invariant, read on the file
    content: no stale existing configuration occurs in the written list. *)
Definition stale_absent (w w' : world) : Prop :=
  forall items configs cfg,
    existing_configurations w items ->
    written_configurations w' configs ->
    In cfg items ->
    references_build_dir cfg = true ->
    ~ In cfg configs.

End Script.

End Launch.

(** File contents taken as what they parse to: [None] is text that is not
    JSON, [Some data] the dump of [data]. *)
Definition parsed_files : JsonModule :=
  {| text := option json; json_load := fun t => t; json_dump := Some |}.

(* ================================================================== *)
(** ** scripts/generate_structure_doc.py *)
(* ================================================================== *)

Module StructureDoc.

(** [sorted(names)]: a stable sort by [String.leb], the order of [str]. *)
Fixpoint insert (x : string) (l : list string) : list string :=
  match l with
  | [] => [x]
  | y :: rest => if String.leb x y then x :: l else y :: insert x rest
  end.

Fixpoint sorted (l : list string) : list string :=
  match l with
  | [] => []
  | x :: rest => insert x (sorted rest)
  end.

(** The loop [for item in items: entries += body(item)]. *)
Definition for_each (body : string -> result (list string))
  : list string -> result (list string) :=
  fix loop (items : list string) : result (list string) :=
    match items with
    | [] => Ok []
    | item :: rest =>
        block <- body item ;;
        tail <- loop rest ;;
        Ok (block ++ tail)
    end.

(** [f"{prefix}- {item}/"] and [f"{prefix}- {item}"] *)
Definition dir_line (prefix item : string) : string := prefix ++ "- " ++ item ++ "/".
Definition file_line (prefix item : string) : string := prefix ++ "- " ++ item.

(** [f"## `{folder}/`"] and [f"## `{folder}/` not found.\n"] *)
Definition heading (folder : string) : string := "## `" ++ folder ++ "/`".
Definition not_found (folder : string) : string :=
  "## `" ++ folder ++ "/` not found." ++ newline.

Definition title : string := "# Current Code Directory Structure" ++ newline.

(** [generate_file_structure(root, prefix)], [root] being the node at the
    path.  The body of the loop resolves [os.path.join(root, item)] in the
    directory; a name that resolves to nothing is not a directory. *)
Fixpoint generate_file_structure (root : node) (prefix : string) {struct root}
  : result (list string) :=
  match root with
  | Dir entries =>
      for_each
        (fun item =>
           (fix at_path (es : list (string * node)) : result (list string) :=
              match es with
              | [] => Ok [file_line prefix item]
              | (name, n) :: rest =>
                  if String.eqb name item then
                    match n with
                    | Dir _ =>
                        sub <- generate_file_structure n (prefix ++ "  ")%string ;;
                        Ok (dir_line prefix item :: sub)
                    | _ => Ok [file_line prefix item]
                    end
                  else at_path rest
              end) entries)
        (sorted (map fst entries))
  | _ => Raise NotADirectoryError
  end.

Definition target_dirs : list string := ["src"; "tests"].

(** The lines one target folder adds to [output_lines]; [parent] is the
    listing of [parent_dir]. *)
Definition folder_lines (parent : list (string * node)) (folder : string)
  : result (list string) :=
  match child parent folder with
  | Some n =>
      structure <- generate_file_structure n "" ;;
      Ok (heading folder :: structure ++ [""])
  | None => Ok [not_found folder]
  end.

Definition output_lines (parent : list (string * node)) : result (list string) :=
  body <- for_each (folder_lines parent) target_dirs ;;
  Ok (title :: body).

(** The device behind the output file: it takes all that is written, or it
    fails when [written] characters have reached the file. *)
Inductive device : Type :=
| Accepts
| FailsAfter (written : nat).

(** The listing of [parent_dir], the text of the output file where the
    tree has a regular file at its path, and the device. *)
Record world : Type := {
  parent_dir : list (string * node);
  output_text : string;
  disk : device
}.

Definition docs_name : string := "docs".
Definition output_name : string := "_current_code_dir_structure_.md".

Definition entries_of (n : option node) : list (string * node) :=
  match n with
  | Some (Dir entries) => entries
  | _ => []
  end.

(** [os.makedirs(os.path.join(parent, name), exist_ok=True)]: the listing
    of [parent] afterwards.  Something there that is not a directory makes
    it raise. *)
Definition makedirs (parent : list (string * node)) (name : string)
  : result (list (string * node)) :=
  match child parent name with
  | None => Ok (parent ++ [(name, Dir [])])
  | Some (Dir _) => Ok parent
  | Some _ => Raise FileExistsError
  end.

(** [open(os.path.join(dir, name), "w")]: the listing of [dir] afterwards.
    A missing file is created, a regular file is truncated, a directory
    cannot be opened for writing; a special file is taken to refuse (as a
    socket does). *)
Definition open_w (dir : list (string * node)) (name : string)
  : result (list (string * node)) :=
  match child dir name with
  | None => Ok (dir ++ [(name, File)])
  | Some File => Ok dir
  | Some (Dir _) => Raise IsADirectoryError
  | Some Special => Raise OSError
  end.

Definition main (w : world) : result unit * world :=
  match output_lines (parent_dir w) with
  | Raise e => (Raise e, w)
  | Ok lines =>
      match makedirs (parent_dir w) docs_name with
      | Raise e => (Raise e, w)
      | Ok parent1 =>
          match open_w (entries_of (child parent1 docs_name)) output_name with
          | Raise e =>
              (Raise e, {| parent_dir := parent1;
                           output_text := output_text w;
                           disk := disk w |})
          | Ok docs1 =>
              let parent2 := dict_set docs_name (Dir docs1) parent1 in
              let content := join newline lines in
              match disk w with
              | Accepts =>
                  (Ok tt, {| parent_dir := parent2;
                             output_text := content;
                             disk := disk w |})
              | FailsAfter written =>
                  (Raise OSError,
                   {| parent_dir := parent2;
                      output_text := String.substring 0 written content;
                      disk := disk w |})
              end
          end
      end
  end.

(** The node at [docs/_current_code_dir_structure_.md], and the text of
    the file when a regular file is there. *)
Definition output_path (w : world) : option node :=
  child (entries_of (child (parent_dir w) docs_name)) output_name.

Definition output_file (w : world) : option string :=
  if isfile (output_path w) then Some (output_text w) else None.

(** *** Vocabulary of the specification *)

(** Two spaces per nesting depth below the target root. *)
Fixpoint indent (depth : nat) : string :=
  match depth with
  | O => ""
  | S d => indent d ++ "  "
  end.

(** Lexicographic order of names, by character code. *)
Inductive lex_le : string -> string -> Prop :=
| lex_le_empty : forall s, lex_le "" s
| lex_le_head : forall a s b t,
    (N_of_ascii a < N_of_ascii b)%N -> lex_le (String a s) (String b t)
| lex_le_tail : forall a s t,
    lex_le s t -> lex_le (String a s) (String a t).

Definition name_le (e1 e2 : string * node) : Prop := lex_le (fst e1) (fst e2).

(** [listing depth entries lines]: [lines] is the rendering of a directory
    at nesting depth [depth]: its entries taken in lexicographic order of
    name, a directory as its line followed by its own listing one level
    deeper, anything else as one line. *)
Inductive listing : nat -> list (string * node) -> list string -> Prop :=
| listing_sorted : forall depth entries order lines,
    Permutation entries order ->
    StronglySorted name_le order ->
    blocks depth order lines ->
    listing depth entries lines
with blocks : nat -> list (string * node) -> list string -> Prop :=
| blocks_done : forall depth, blocks depth [] []
| blocks_dir : forall depth name entries rest sub lines,
    listing (S depth) entries sub ->
    blocks depth rest lines ->
    blocks depth ((name, Dir entries) :: rest)
           ((indent depth ++ "- " ++ name ++ "/")%string :: sub ++ lines)
| blocks_other : forall depth name n rest lines,
    isdir (Some n) = false ->
    blocks depth rest lines ->
    blocks depth ((name, n) :: rest)
           ((indent depth ++ "- " ++ name)%string :: lines).



End StructureDoc.

(* ================================================================== *)
(** ** Facts about the string primitives and dictionaries *)
(* ================================================================== *)

Section StringFacts.

Lemma prefix_iff (p s : string) :
  String.prefix p s = true <-> exists post, s = (p ++ post)%string.
Proof.
  revert s; induction p as [|a p IH]; intros s; simpl.
  - destruct s; split; intros _; try reflexivity; eexists; reflexivity.
  - destruct s as [|b s]; simpl.
    + split; [discriminate | intros [post H]; discriminate].
    + destruct (ascii_dec a b) as [->|Hab].
      * rewrite IH. split; intros [post H]; exists post.
        -- now rewrite H.
        -- now injection H.
      * split; [discriminate | intros [post H]; injection H; intros; congruence].
Qed.

Lemma contains_iff (needle hay : string) :
  contains needle hay = true <->
  exists pre post, hay = (pre ++ needle ++ post)%string.
Proof.
  induction hay as [|c hay IH]; cbn [contains].
  - rewrite orb_false_r, prefix_iff. split.
    + intros [post H]. exists "", post. exact H.
    + intros [pre [post H]]. destruct pre; simpl in H; [|discriminate].
      now exists post.
  - rewrite orb_true_iff, prefix_iff, IH. split.
    + intros [[post H]|[pre [post H]]].
      * exists "", post. exact H.
      * exists (String c pre), post. simpl. now rewrite H.
    + intros [pre [post H]]. destruct pre as [|c' pre]; simpl in H.
      * left. now exists post.
      * right. injection H as _ H. now exists pre, post.
Qed.

Lemma endswith_iff (s suffix : string) :
  endswith s suffix = true <-> exists pre, s = (pre ++ suffix)%string.
Proof.
  induction s as [|c s IH]; cbn [endswith].
  - rewrite orb_false_r, String.eqb_eq. split.
    + intros <-. now exists "".
    + intros [pre H]. destruct pre; simpl in H; [assumption | discriminate].
  - rewrite orb_true_iff, String.eqb_eq, IH. split.
    + intros [<-|[pre ->]].
      * now exists "".
      * now exists (String c pre).
    + intros [pre H]. destruct pre as [|c' pre]; simpl in H.
      * now left.
      * right. injection H as _ H. now exists pre.
Qed.

Lemma map_chars_app (f : ascii -> ascii) (a b : string) :
  map_chars f (a ++ b) = (map_chars f a ++ map_chars f b)%string.
Proof.
  induction a as [|c a IH]; simpl; [reflexivity | now rewrite IH].
Qed.

Lemma append_assoc (a b c : string) :
  ((a ++ b) ++ c = a ++ (b ++ c))%string.
Proof.
  induction a as [|x a IH]; simpl; [reflexivity | now rewrite IH].
Qed.

Lemma dict_get_set {V : Type} (key : string) (v : V) (d : list (string * V)) :
  dict_get key (dict_set key v d) = Some v.
Proof.
  induction d as [|[k v0] d IH]; simpl.
  - now rewrite String.eqb_refl.
  - destruct (String.eqb k key) eqn:E; simpl; rewrite E; [reflexivity | exact IH].
Qed.

Lemma dict_set_set {V : Type} (key : string) (v v' : V) (d : list (string * V)) :
  dict_set key v (dict_set key v' d) = dict_set key v d.
Proof.
  induction d as [|[k v0] d IH]; simpl.
  - now rewrite String.eqb_refl.
  - destruct (String.eqb k key) eqn:E; simpl; rewrite E; [reflexivity | now rewrite IH].
Qed.

End StringFacts.

(* ================================================================== *)
(** ** The launch-configuration synchronizer: how a run unfolds *)
(* ================================================================== *)

Section LaunchFacts.

Context {J : JsonModule}.

Import Launch.

Definition all_dicts (items : list json) : Prop :=
  Forall (fun cfg => is_dict cfg = true) items.

Lemma keeps_dict (fields : list (string * json)) :
  keeps (JObj fields) = Ok (preserved (JObj fields)).
Proof.
  unfold keeps, preserved, references_build_dir, field, py_get.
  destruct (dict_get "program" fields); reflexivity.
Qed.

Lemma keeps_other (cfg : json) :
  is_dict cfg = false -> keeps cfg = Raise AttributeError.
Proof. destruct cfg; simpl; intros H; try reflexivity; discriminate. Qed.

Lemma comprehension_ok (items : list json) :
  all_dicts items -> filter_r keeps items = Ok (filter preserved items).
Proof.
  induction 1 as [|cfg items Hd _ IH]; [reflexivity|].
  destruct cfg; try discriminate.
  cbn [filter_r filter]. rewrite keeps_dict, IH. reflexivity.
Qed.

Lemma comprehension_inv (items kept : list json) :
  filter_r keeps items = Ok kept ->
  all_dicts items /\ kept = filter preserved items.
Proof.
  revert kept; induction items as [|cfg items IH]; intros kept H.
  - injection H as <-. split; [constructor | reflexivity].
  - cbn [filter_r] in H.
    destruct (is_dict cfg) eqn:Hd.
    + destruct cfg; try discriminate. rewrite keeps_dict in H.
      cbn [bind] in H.
      destruct (filter_r keeps items) as [kept0|e]; [|discriminate].
      destruct (IH kept0 eq_refl) as [Hall ->].
      cbn [bind] in H. injection H as <-.
      split; [constructor; assumption | reflexivity].
    + rewrite (keeps_other _ Hd) in H. discriminate.
Qed.

Lemma comprehension_raise (items : list json) (e : exn) :
  filter_r keeps items = Raise e -> e = AttributeError.
Proof.
  induction items as [|cfg items IH]; [discriminate|].
  cbn [filter_r]. destruct (is_dict cfg) eqn:Hd.
  - destruct cfg; try discriminate. rewrite keeps_dict. cbn [bind].
    destruct (filter_r keeps items); cbn [bind]; [discriminate|].
    intros H; injection H as <-. now apply IH.
  - rewrite (keeps_other _ Hd). cbn [bind]. now intros H; injection H.
Qed.

(** The value a completed run dumps. *)
Definition synchronized (fields : list (string * json)) (items : list json)
    (entries : list (string * node)) : json :=
  JObj (dict_set "configurations"
          (JArr (filter preserved items ++
                 test_configs (test_executables (Dir entries) (map fst entries))))
          fields).

Lemma new_data_intro (w : world) fields configurations items entries :
  load_data w = Ok (JObj fields) ->
  dict_get "configurations" fields = Some configurations ->
  py_iter configurations = Ok items ->
  all_dicts items ->
  build_path w = Some (Dir entries) ->
  new_data w = Ok (synchronized fields items entries).
Proof.
  intros HL HC HI HD HB. unfold new_data, preserved_configs.
  rewrite HL. cbn [bind py_getitem]. rewrite HC. cbn [bind]. rewrite HI.
  cbn [bind]. rewrite (comprehension_ok _ HD). cbn [bind]. rewrite HB.
  reflexivity.
Qed.

Lemma new_data_inv (w : world) (d : json) :
  new_data w = Ok d ->
  exists fields configurations items entries,
    load_data w = Ok (JObj fields) /\
    dict_get "configurations" fields = Some configurations /\
    py_iter configurations = Ok items /\
    all_dicts items /\
    build_path w = Some (Dir entries) /\
    d = synchronized fields items entries.
Proof.
  unfold new_data, preserved_configs. intros H.
  destruct (load_data w) as [data|e]; [|discriminate].
  cbn [bind] in H.
  destruct data as [| | | | |?|fields]; try discriminate.
  cbn [py_getitem] in H.
  destruct (dict_get "configurations" fields) as [configurations|] eqn:HC;
    [|discriminate].
  cbn [bind] in H.
  destruct (py_iter configurations) as [items|e] eqn:HI; [|discriminate].
  cbn [bind] in H.
  destruct (filter_r keeps items) as [kept|e] eqn:HF; [|discriminate].
  apply comprehension_inv in HF. destruct HF as [HD ->].
  cbn [bind] in H.
  destruct (build_path w) as [[| |entries]|] eqn:HB; try discriminate.
  cbn in H. injection H as <-.
  exists fields, configurations, items, entries. repeat split; assumption.
Qed.

Lemma run_ok_iff (w w' : world) :
  run w = (Ok tt, w') <-> exists d, new_data w = Ok d /\ w' = write d w.
Proof.
  unfold run. destruct (new_data w) as [d|e]; split.
  - intros H. injection H as <-. now exists d.
  - intros [d' [H ->]]. injection H as ->. reflexivity.
  - discriminate.
  - intros [d' [H _]]. discriminate.
Qed.

End LaunchFacts.

(* ================================================================== *)
(** ** The launch-configuration synchronizer: properties *)
(* ================================================================== *)

Section LaunchProperties.

Context {J : JsonModule}.

Import Launch.

Lemma is_test_program_iff (program : json) :
  is_test_program program = true <->
  exists p, program = JStr p /\
            substring_of (lower (replace backslash slash build_dir))
                         (lower (replace backslash slash p)).
Proof.
  unfold is_test_program, substring_of.
  destruct program as [| | | |p| |]; cbn [is_str negb];
    try (split; [discriminate | intros [p [H _]]; discriminate]).
  rewrite contains_iff. split.
  - intros H. now exists p.
  - intros [p' [H H']]. injection H as ->. exact H'.
Qed.

Lemma references_iff (fields : list (string * json)) :
  references_build_dir (JObj fields) = true <->
  exists p, dict_get "program" fields = Some (JStr p) /\
            substring_of (lower (replace backslash slash build_dir))
                         (lower (replace backslash slash p)).
Proof.
  unfold references_build_dir, field.
  destruct (dict_get "program" fields) as [program|].
  - rewrite is_test_program_iff. split; intros [p [H H']]; exists p.
    + now rewrite H.
    + injection H as ->. now split.
  - split; [discriminate | intros [p [H _]]; discriminate].
Qed.

(** C4.  A configuration is discarded by the comprehension exactly when it
    has a [program] string which, with backslashes replaced by slashes and
    lowercased, contains the build-output directory path normalized the same
    way; in every other case it is kept. *)
Theorem stale_iff_program_contains_build_dir (fields : list (string * json)) :
  let stale :=
    exists p, dict_get "program" fields = Some (JStr p) /\
              substring_of (lower (replace backslash slash build_dir))
                           (lower (replace backslash slash p)) in
  (keeps (JObj fields) = Ok false <-> stale) /\
  (keeps (JObj fields) = Ok true <-> ~ stale).
Proof.
  cbv zeta. rewrite keeps_dict. unfold preserved.
  rewrite <- references_iff.
  destruct (references_build_dir (JObj fields)); cbn [negb];
    split; split; intros H; try reflexivity; try discriminate;
    try congruence.
Qed.

Lemma filter_preserved_out (items : list json) (cfg : json) :
  references_build_dir cfg = true -> ~ In cfg (filter preserved items).
Proof.
  intros H Hin. apply filter_In in Hin. destruct Hin as [_ Hp].
  unfold preserved in Hp. rewrite H in Hp. discriminate.
Qed.

Lemma run_ok_inv (w w' : world) :
  run w = (Ok tt, w') ->
  exists fields configurations items entries,
    load_data w = Ok (JObj fields) /\
    dict_get "configurations" fields = Some configurations /\
    py_iter configurations = Ok items /\
    all_dicts items /\
    build_path w = Some (Dir entries) /\
    w' = write (synchronized fields items entries) w.
Proof.
  intros H. apply run_ok_iff in H. destruct H as [d [Hd ->]].
  apply new_data_inv in Hd.
  destruct Hd as (fields & configurations & items & entries & H1 & H2 & H3 & H4 & H5 & ->).
  exists fields, configurations, items, entries. repeat split; assumption.
Qed.

Lemma written_synchronized (w : world) fields items entries :
  written_configurations (write (synchronized fields items entries) w)
    (filter preserved items ++
     test_configs (test_executables (Dir entries) (map fst entries))).
Proof.
  unfold written_configurations, write, synchronized. cbn [launch_file].
  eexists. split; [reflexivity | apply dict_get_set].
Qed.

(** C1, as amended.  For every run that writes the file, the written
    [configurations] list is the existing configurations that do not
    reference the build-output directory, unmodified and in their original
    order, followed by the synthesized configurations in discovery order; an
    existing configuration that references the build-output directory is
    not among the preserved ones, and occurs in the result only as one of
    the synthesized configurations. *)
Theorem run_regenerates_build_entries (w w' : world) :
  run w = (Ok tt, w') ->
  exists items executables,
    existing_configurations w items /\
    discovered w executables /\
    written_configurations w'
      (filter preserved items ++ test_configs executables) /\
    forall cfg,
      In cfg items -> references_build_dir cfg = true ->
      ~ In cfg (filter preserved items) /\
      (In cfg (filter preserved items ++ test_configs executables) ->
       In cfg (test_configs executables)).
Proof.
  intros H. apply run_ok_inv in H.
  destruct H as (fields & configurations & items & entries & H1 & H2 & H3 & H4 & H5 & ->).
  exists items, (test_executables (Dir entries) (map fst entries)).
  split; [|split; [|split]].
  - exists (JObj fields), configurations. cbn [py_getitem]. rewrite H2. auto.
  - exists entries. auto.
  - apply written_synchronized.
  - intros cfg _ Hs. pose proof (filter_preserved_out items cfg Hs) as Hout.
    split; [exact Hout|]. intros Hin. apply in_app_or in Hin.
    destruct Hin as [Hin|Hin]; [contradiction | exact Hin].
Qed.

(** C2.  With a launch.json whose [configurations] is a list [C] of
    objects, and a build-output directory that exists and holds no name
    ending in [.exe] that is a regular file, the run writes the file and
    its [configurations] list is the sublist of [C] whose [program] does not
    reference the build-output directory: nothing is added. *)
Theorem empty_build_dir_keeps_only_preserved
    (w : world) (t : text) fields (C : list json) entries :
  launch_file w = Some t ->
  json_load t = Some (JObj fields) ->
  dict_get "configurations" fields = Some (JArr C) ->
  all_dicts C ->
  build_path w = Some (Dir entries) ->
  (forall f, In f (map fst entries) ->
             endswith f ".exe" = true -> isfile (child entries f) = false) ->
  exists w',
    run w = (Ok tt, w') /\
    launch_file w' =
      Some (json_dump
              (JObj (dict_set "configurations" (JArr (filter preserved C)) fields))) /\
    written_configurations w' (filter preserved C).
Proof.
  intros Ht Hl Hc Hd Hb Hnone.
  assert (HL : load_data w = Ok (JObj fields)).
  { unfold load_data, load. rewrite Ht, Hl. cbn [bind py_get]. rewrite Hc.
    reflexivity. }
  assert (He : test_executables (Dir entries) (map fst entries) = []).
  { unfold test_executables.
    assert (G : forall l, (forall f, In f l -> In f (map fst entries)) ->
                          filter (is_test_executable (Dir entries)) l = []).
    { induction l as [|f l IH]; intros Hsub; [reflexivity|].
      cbn [filter]. unfold is_test_executable at 1. cbn [lookup].
      destruct (endswith f ".exe") eqn:E; cbn [andb].
      - rewrite (Hnone f (Hsub f (or_introl eq_refl)) E).
        apply IH. intros g Hg. apply Hsub. now right.
      - apply IH. intros g Hg. apply Hsub. now right. }
    apply G. auto. }
  pose proof (new_data_intro w fields (JArr C) C entries HL Hc eq_refl Hd Hb) as Hn.
  unfold synchronized in Hn. rewrite He in Hn. cbn [test_configs map] in Hn.
  rewrite app_nil_r in Hn.
  eexists. unfold run. rewrite Hn. split; [reflexivity|].
  split; [reflexivity|].
  unfold written_configurations, write. cbn [launch_file].
  eexists. split; [reflexivity | apply dict_get_set].
Qed.

Lemma load_data_raise (w : world) (e : exn) :
  load_data w = Raise e -> exit_status e = 1%Z.
Proof.
  unfold load_data, load.
  destruct (launch_file w) as [t|]; [|discriminate].
  destruct (json_load t) as [data|]; cbn [bind].
  - destruct data as [| | | | | |fields]; cbn [py_get bind];
      try (intros H; injection H as <-; reflexivity).
    destruct (dict_get "configurations" fields) as [shown|]; cbn [bind].
    + destruct shown; cbn [py_len bind]; try discriminate;
        intros H; injection H as <-; reflexivity.
    + discriminate.
  - intros H; injection H as <-; reflexivity.
Qed.

Lemma preserved_configs_raise (data : json) (e : exn) :
  preserved_configs data = Raise e -> exit_status e = 1%Z.
Proof.
  unfold preserved_configs.
  destruct (py_getitem data "configurations") as [configurations|e0] eqn:Hg;
    cbn [bind].
  - destruct (py_iter configurations) as [items|e1] eqn:Hi; cbn [bind].
    + intros H. apply comprehension_raise in H. now subst.
    + intros H; injection H as <-.
      destruct configurations; cbn in Hi; try discriminate;
        injection Hi as <-; reflexivity.
  - intros H; injection H as <-.
    destruct data as [| | | | | |fields]; cbn in Hg;
      try (injection Hg as <-; reflexivity).
    destruct (dict_get "configurations" fields); [discriminate|].
    injection Hg as <-; reflexivity.
Qed.

(** C3.  When the build-output directory does not exist the run ends with
    an exception whose exit status is not zero, and the world is left as it
    was: launch.json keeps its content, or stays absent. *)
Theorem missing_build_dir_aborts_without_write (w : world) :
  build_path w = None ->
  exists e,
    run w = (Raise e, w) /\
    status (Raise e) <> 0%Z /\
    launch_file (snd (run w)) = launch_file w.
Proof.
  intros Hb. unfold run, new_data.
  destruct (load_data w) as [data|e] eqn:HL; cbn [bind].
  - destruct (preserved_configs data) as [kept|e] eqn:HP; cbn [bind].
    + rewrite Hb. exists (SystemExit 1). repeat split. cbn. discriminate.
    + exists e. repeat split. cbn [status].
      rewrite (preserved_configs_raise _ _ HP). discriminate.
  - exists e. repeat split. cbn [status].
    rewrite (load_data_raise _ _ HL). discriminate.
Qed.

(** C9.  A launch.json that parses to an object without a
    [configurations] key makes the run raise [KeyError] before anything is
    written, so the world is unchanged; the empty [configurations] list is
    what the script starts from only when the file is absent. *)
Theorem missing_configurations_key_raises
    (w : world) (t : text) (fields : list (string * json)) :
  launch_file w = Some t ->
  json_load t = Some (JObj fields) ->
  dict_get "configurations" fields = None ->
  run w = (Raise (KeyError "configurations"), w) /\
  (forall w0 : world,
      launch_file w0 = None ->
      load_data w0 = Ok new_structure /\
      field new_structure "configurations" = Some (JArr [])).
Proof.
  intros Ht Hl Hk. split.
  - unfold run, new_data, load_data, load, preserved_configs.
    rewrite Ht, Hl. cbn [bind py_get]. rewrite Hk.
    cbn [bind py_len py_getitem]. rewrite Hk. reflexivity.
  - intros w0 H0. unfold load_data. rewrite H0. split; reflexivity.
Qed.

(** A top-level value that is not an object has no [get] method: the run
    stops at the first use of [data], again before any write. *)
Lemma non_object_data_raises (w : world) (t : text) (data : json) :
  launch_file w = Some t ->
  json_load t = Some data ->
  is_dict data = false ->
  run w = (Raise AttributeError, w).
Proof.
  intros Ht Hl Hd. unfold run, new_data, load_data, load.
  rewrite Ht, Hl. destruct data; try discriminate; reflexivity.
Qed.



(** *** Idempotence *)

Lemma fresh_config_is_stale (exe : string) :
  valid_name exe = true -> references_build_dir (make_config exe) = true.
Proof.
  intros Hv. unfold valid_name in Hv. apply andb_true_iff in Hv.
  destruct Hv as [_ Hs]. apply negb_true_iff in Hs.
  assert (Hj : path_join build_dir exe = (build_dir ++ "/" ++ exe)%string).
  { unfold path_join, startswith.
    destruct (String.prefix "/" exe) eqn:E; [|reflexivity].
    destruct exe as [|c exe]; cbn [contains] in Hs; rewrite E in Hs;
      discriminate. }
  unfold references_build_dir.
  change (field (make_config exe) "program")
    with (Some (JStr ("${workspaceFolder}/" ++
                      replace backslash slash (path_join build_dir exe)))).
  rewrite Hj. apply is_test_program_iff. eexists. split; [reflexivity|].
  unfold lower, replace. rewrite !map_chars_app.
  eexists. eexists. reflexivity.
Qed.

Lemma filter_preserved_twice (items : list json) :
  filter preserved (filter preserved items) = filter preserved items.
Proof.
  induction items as [|c items IH]; [reflexivity|].
  cbn [filter]. destruct (preserved c) eqn:E; [|exact IH].
  cbn [filter]. now rewrite E, IH.
Qed.

Lemma filter_stale_preserved (items : list json) :
  filter references_build_dir (filter preserved items) = [].
Proof.
  induction items as [|c items IH]; [reflexivity|].
  cbn [filter]. unfold preserved at 1.
  destruct (references_build_dir c) eqn:E; cbn [negb]; [exact IH|].
  cbn [filter]. now rewrite E.
Qed.

Lemma fresh_configs_filtered (names : list string) :
  forallb valid_name names = true ->
  filter preserved (test_configs names) = [] /\
  filter references_build_dir (test_configs names) = test_configs names.
Proof.
  induction names as [|n names IH]; intros H; [split; reflexivity|].
  cbn [forallb] in H. apply andb_true_iff in H. destruct H as [Hn Hr].
  destruct (IH Hr) as [IH1 IH2].
  cbn [test_configs map filter]. unfold preserved at 1.
  rewrite (fresh_config_is_stale n Hn). cbn [negb].
  fold (test_configs names). now rewrite IH1, IH2.
Qed.

Lemma forallb_filter {A : Type} (p q : A -> bool) (l : list A) :
  forallb p l = true -> forallb p (filter q l) = true.
Proof.
  induction l as [|x l IH]; [reflexivity|].
  cbn [forallb filter]. intros H. apply andb_true_iff in H.
  destruct H as [Hx Hl]. destruct (q x); cbn [forallb]; [rewrite Hx|]; auto.
Qed.

Lemma all_dicts_synchronized (items : list json) (names : list string) :
  all_dicts items -> all_dicts (filter preserved items ++ test_configs names).
Proof.
  intros H. apply Forall_app. split.
  - apply Forall_forall. intros c Hc. apply filter_In in Hc.
    destruct Hc as [Hc _]. revert c Hc. now apply Forall_forall.
  - apply Forall_forall. intros c Hc. apply in_map_iff in Hc.
    destruct Hc as [n [<- _]]. reflexivity.
Qed.

(** C5.  When the build-output directory holds valid names and [json.load]
    reads back what the first run dumped, a second run over the unchanged
    directory completes and leaves the world exactly as the first run left
    it: it writes the same content.  The stale entries it removes are the
    ones the first run synthesized, and are the ones it synthesizes again. *)
Theorem second_run_writes_same_configurations (w w1 : world) :
  (forall dir, build_path w = Some dir -> wf dir = true) ->
  (forall d, new_data w = Ok d -> json_load (json_dump d) = Some d) ->
  run w = (Ok tt, w1) ->
  run w1 = (Ok tt, w1) /\
  exists items executables,
    existing_configurations w1 items /\
    discovered w1 executables /\
    filter references_build_dir items = test_configs executables.
Proof.
  intros Hwf Hrt Hrun.
  apply run_ok_inv in Hrun.
  destruct Hrun as (fields & c & items & entries & H1 & H2 & H3 & H4 & H5 & ->).
  pose proof (new_data_intro w fields c items entries H1 H2 H3 H4 H5) as Hn.
  specialize (Hrt _ Hn). specialize (Hwf _ H5).
  set (names := test_executables (Dir entries) (map fst entries)) in *.
  set (R := filter preserved items ++ test_configs names).
  assert (Hnames : forallb valid_name names = true).
  { unfold names, test_executables. apply forallb_filter.
    cbn [wf] in Hwf. apply andb_true_iff in Hwf. destruct Hwf as [Hwf _].
    apply andb_true_iff in Hwf. now destruct Hwf. }
  destruct (fresh_configs_filtered names Hnames) as [Hf1 Hf2].
  set (w1 := write (synchronized fields items entries) w).
  assert (HL : load_data w1
               = Ok (JObj (dict_set "configurations" (JArr R) fields))).
  { unfold load_data, load, w1, write. cbn [launch_file].
    rewrite Hrt. unfold synchronized. fold names. fold R.
    cbn [bind py_get]. rewrite dict_get_set. reflexivity. }
  assert (HR : filter preserved R = filter preserved items).
  { unfold R. rewrite filter_app, filter_preserved_twice, Hf1.
    apply app_nil_r. }
  assert (Hn1 : new_data w1 = Ok (synchronized fields items entries)).
  { rewrite (new_data_intro w1 _ (JArr R) R entries HL
               (dict_get_set _ _ _) eq_refl
               (all_dicts_synchronized items names H4) H5).
    unfold synchronized. fold names. rewrite HR. fold R.
    now rewrite dict_set_set. }
  split.
  - unfold run. rewrite Hn1. reflexivity.
  - exists R, names. split; [|split].
    + eexists. exists (JArr R). repeat split; [exact HL|].
      cbn [py_getitem]. now rewrite dict_get_set.
    + exists entries. split; [exact H5 | reflexivity].
    + unfold R. rewrite filter_app, filter_stale_preserved, Hf2. reflexivity.
Qed.

(** C6.  With launch.json absent and a build-output directory that lists
    exactly the regular files [App.exe] and [Tests.exe], in either order,
    the run writes an object with [version] "0.2.0" and two configurations,
    named "Debug App.exe" and "Debug Tests.exe", each with [request]
    "launch" and a [program] that ends in the file name. *)
Theorem fresh_file_for_two_executables
    (w : world) (entries : list (string * node)) :
  launch_file w = None ->
  build_path w = Some (Dir entries) ->
  Permutation [("App.exe", File); ("Tests.exe", File)] entries ->
  exists w' configs,
    run w = (Ok tt, w') /\
    launch_file w' =
      Some (json_dump (JObj [("version", JStr "0.2.0");
                             ("configurations", JArr configs)])) /\
    Permutation [make_config "App.exe"; make_config "Tests.exe"] configs /\
    Forall (fun exe =>
              field (make_config exe) "name" = Some (JStr ("Debug " ++ exe)) /\
              field (make_config exe) "request" = Some (JStr "launch") /\
              exists p, field (make_config exe) "program" = Some (JStr p) /\
                        endswith p exe = true)
           ["App.exe"; "Tests.exe"].
Proof.
  intros Hl Hb Hp.
  assert (HL : load_data w = Ok new_structure).
  { unfold load_data. now rewrite Hl. }
  pose proof (new_data_intro w _ (JArr []) [] entries HL eq_refl eq_refl
                (Forall_nil _) Hb) as Hn.
  apply Permutation_length_2_inv in Hp.
  destruct Hp as [->| ->].
  - eexists. eexists. unfold run. rewrite Hn. split; [reflexivity|].
    split; [reflexivity|]. split; [apply Permutation_refl|].
    repeat constructor; eexists; split; reflexivity.
  - eexists. eexists. unfold run. rewrite Hn. split; [reflexivity|].
    split; [reflexivity|]. split; [apply perm_swap|].
    repeat constructor; eexists; split; reflexivity.
Qed.

End LaunchProperties.

(* ================================================================== *)
(** ** The launch-configuration synchronizer on concrete worlds *)
(* ================================================================== *)

Module LaunchRuns.

Import Launch.

Definition launch_json (configs : list json) : json :=
  JObj [("version", JStr "0.2.0"); ("configurations", JArr configs)].

(** A world whose launch.json holds the dump of [data]. *)
Definition on_disk (data : json) (dir : option node) : @world parsed_files :=
  {| launch_file := Some (json_dump data); build_path := dir |}.

Definition no_launch_file (dir : option node) : @world parsed_files :=
  {| launch_file := None; build_path := dir |}.

Definition unrelated_config : json :=
  JObj [("name", JStr "Run tool");
        ("type", JStr "cppdbg");
        ("request", JStr "launch");
        ("program", JStr "${workspaceFolder}/bin/tool.exe")].


(** launch.json as a first run over [App.exe] left it; [App.exe] is still
    there. *)
Definition second_run_world : @world parsed_files :=
  on_disk (launch_json [make_config "App.exe"])
          (Some (Dir [("App.exe", File)])).

(** One unrelated configuration, one stale one; the directory now holds a
    different executable. *)
Definition scenario_world : @world parsed_files :=
  on_disk (launch_json [unrelated_config; make_config "Old.exe"])
          (Some (Dir [("New.exe", File); ("New.pdb", File)])).

Definition scenario_after : @world parsed_files :=
  on_disk (launch_json [unrelated_config; make_config "New.exe"])
          (Some (Dir [("New.exe", File); ("New.pdb", File)])).

End LaunchRuns.

Import LaunchRuns.

(** C1, counterexample.  On the second of two runs over an unchanged
    directory the stale entry for [App.exe] is an existing configuration
    that references the build-output directory, and the written list holds
    it: the synthesized entry is equal to it. *)
Lemma stale_entry_occurs_in_result :
  Launch.run second_run_world = (Ok tt, second_run_world) /\
  ~ Launch.stale_absent second_run_world second_run_world.
Proof.
  split; [reflexivity|].
  intros H.
  apply (H [Launch.make_config "App.exe"] [Launch.make_config "App.exe"]
           (Launch.make_config "App.exe")).
  - eexists. eexists. repeat split; reflexivity.
  - eexists. split; reflexivity.
  - now left.
  - reflexivity.
  - now left.
Qed.

Lemma run_regenerates_build_entries_witness :
  exists items executables,
    Launch.existing_configurations scenario_world items /\
    Launch.discovered scenario_world executables /\
    Launch.written_configurations scenario_after
      (filter Launch.preserved items ++ Launch.test_configs executables) /\
    forall cfg,
      In cfg items -> Launch.references_build_dir cfg = true ->
      ~ In cfg (filter Launch.preserved items) /\
      (In cfg (filter Launch.preserved items ++ Launch.test_configs executables) ->
       In cfg (Launch.test_configs executables)).
Proof.
  apply (run_regenerates_build_entries scenario_world scenario_after).
  reflexivity.
Defined.

Lemma empty_build_dir_keeps_only_preserved_witness :
  exists w',
    Launch.run (on_disk (launch_json [unrelated_config; Launch.make_config "Old.exe"])
                        (Some (Dir [("notes.txt", File); ("old.exe", Dir [])])))
    = (Ok tt, w') /\
    Launch.launch_file w' =
      Some (json_dump (launch_json [unrelated_config])) /\
    Launch.written_configurations w' [unrelated_config].
Proof.
  apply (empty_build_dir_keeps_only_preserved
           (on_disk (launch_json [unrelated_config; Launch.make_config "Old.exe"])
                    (Some (Dir [("notes.txt", File); ("old.exe", Dir [])])))
           (Some (launch_json [unrelated_config; Launch.make_config "Old.exe"]))
           [("version", JStr "0.2.0");
            ("configurations",
             JArr [unrelated_config; Launch.make_config "Old.exe"])]
           [unrelated_config; Launch.make_config "Old.exe"]
           [("notes.txt", File); ("old.exe", Dir [])]).
  - reflexivity.
  - reflexivity.
  - reflexivity.
  - repeat constructor.
  - reflexivity.
  - intros f [<-|[<-|[]]] E; [discriminate E | reflexivity].
Defined.

Lemma missing_build_dir_aborts_without_write_witness :
  exists e,
    Launch.run (on_disk (launch_json [unrelated_config]) None)
    = (Raise e, on_disk (launch_json [unrelated_config]) None) /\
    Launch.status (Raise e) <> 0%Z /\
    Launch.launch_file
      (snd (Launch.run (on_disk (launch_json [unrelated_config]) None)))
    = Launch.launch_file (on_disk (launch_json [unrelated_config]) None).
Proof.
  apply (missing_build_dir_aborts_without_write
           (on_disk (launch_json [unrelated_config]) None)).
  reflexivity.
Defined.

Lemma second_run_writes_same_configurations_witness :
  Launch.run scenario_after = (Ok tt, scenario_after) /\
  exists items executables,
    Launch.existing_configurations scenario_after items /\
    Launch.discovered scenario_after executables /\
    filter Launch.references_build_dir items = Launch.test_configs executables.
Proof.
  apply (second_run_writes_same_configurations scenario_world scenario_after).
  - intros dir H. injection H as <-. reflexivity.
  - intros d _. reflexivity.
  - reflexivity.
Defined.

Lemma fresh_file_for_two_executables_witness :
  exists w' configs,
    Launch.run (no_launch_file (Some (Dir [("Tests.exe", File); ("App.exe", File)])))
    = (Ok tt, w') /\
    Launch.launch_file w' =
      Some (json_dump (JObj [("version", JStr "0.2.0");
                             ("configurations", JArr configs)])) /\
    Permutation [Launch.make_config "App.exe"; Launch.make_config "Tests.exe"]
                configs /\
    Forall (fun exe =>
              field (Launch.make_config exe) "name" = Some (JStr ("Debug " ++ exe)) /\
              field (Launch.make_config exe) "request" = Some (JStr "launch") /\
              exists p, field (Launch.make_config exe) "program" = Some (JStr p) /\
                        endswith p exe = true)
           ["App.exe"; "Tests.exe"].
Proof.
  apply (fresh_file_for_two_executables
           (no_launch_file (Some (Dir [("Tests.exe", File); ("App.exe", File)])))
           [("Tests.exe", File); ("App.exe", File)]).
  - reflexivity.
  - reflexivity.
  - apply perm_swap.
Defined.

Lemma missing_configurations_key_raises_witness :
  Launch.run (on_disk (JObj [("version", JStr "0.2.0")])
                      (Some (Dir [("App.exe", File)])))
  = (Raise (KeyError "configurations"),
     on_disk (JObj [("version", JStr "0.2.0")]) (Some (Dir [("App.exe", File)]))) /\
  (forall w0 : @Launch.world parsed_files,
      Launch.launch_file w0 = None ->
      Launch.load_data w0 = Ok Launch.new_structure /\
      field Launch.new_structure "configurations" = Some (JArr [])).
Proof.
  apply (missing_configurations_key_raises
           (on_disk (JObj [("version", JStr "0.2.0")])
                    (Some (Dir [("App.exe", File)])))
           (Some (JObj [("version", JStr "0.2.0")]))
           [("version", JStr "0.2.0")]); reflexivity.
Defined.


(* ================================================================== *)
(** ** The structure-document generator: order of names *)
(* ================================================================== *)

Section NameOrder.

Import StructureDoc.

Lemma leb_lex_le (s t : string) : String.leb s t = true <-> lex_le s t.
Proof.
  revert t; induction s as [|a s IH]; intros [|b t].
  - split; [constructor | reflexivity].
  - split; [constructor | reflexivity].
  - split; [discriminate | intros H; inversion H].
  - unfold String.leb. cbn [String.compare]. unfold Ascii.compare.
    destruct (N.compare (N_of_ascii a) (N_of_ascii b)) eqn:E.
    + apply N.compare_eq_iff in E.
      assert (a = b) as ->.
      { rewrite <- (ascii_N_embedding a), <- (ascii_N_embedding b). now rewrite E. }
      fold (String.leb s t). rewrite IH. split.
      * now constructor.
      * intros H. inversion H; subst; [lia | assumption].
    + apply N.compare_lt_iff in E. split; [now constructor | reflexivity].
    + apply N.compare_gt_iff in E. split; [discriminate|].
      intros H. inversion H; subst; lia.
Qed.

Lemma lex_le_trans (a b c : string) : lex_le a b -> lex_le b c -> lex_le a c.
Proof.
  intros H; revert c; induction H as [s|x s y t Hxy|x s t Hst IH]; intros c Hc.
  - constructor.
  - inversion Hc; subst; constructor; lia.
  - inversion Hc; subst.
    + now constructor.
    + apply lex_le_tail. now apply IH.
Qed.

Lemma lex_le_total (a b : string) : lex_le a b \/ lex_le b a.
Proof.
  destruct (String.leb_total a b) as [H|H]; apply leb_lex_le in H; auto.
Qed.

(** The entries of a directory in the order the loop visits their names. *)
Fixpoint insert_entry (e : string * node) (l : list (string * node))
  : list (string * node) :=
  match l with
  | [] => [e]
  | y :: rest =>
      if String.leb (fst e) (fst y) then e :: l else y :: insert_entry e rest
  end.

Fixpoint visit_order (l : list (string * node)) : list (string * node) :=
  match l with
  | [] => []
  | e :: rest => insert_entry e (visit_order rest)
  end.

Lemma insert_entry_names (e : string * node) (l : list (string * node)) :
  map fst (insert_entry e l) = insert (fst e) (map fst l).
Proof.
  induction l as [|y l IH]; [reflexivity|].
  cbn [insert_entry map insert].
  destruct (String.leb (fst e) (fst y)); cbn [map]; [reflexivity | now rewrite IH].
Qed.

Lemma visit_order_names (l : list (string * node)) :
  map fst (visit_order l) = sorted (map fst l).
Proof.
  induction l as [|e l IH]; [reflexivity|].
  cbn [visit_order map sorted]. now rewrite insert_entry_names, IH.
Qed.

Lemma insert_entry_perm (e : string * node) (l : list (string * node)) :
  Permutation (e :: l) (insert_entry e l).
Proof.
  induction l as [|y l IH]; [apply Permutation_refl|].
  cbn [insert_entry]. destruct (String.leb (fst e) (fst y)).
  - apply Permutation_refl.
  - eapply perm_trans; [apply perm_swap|]. now apply perm_skip.
Qed.

Lemma visit_order_perm (l : list (string * node)) :
  Permutation l (visit_order l).
Proof.
  induction l as [|e l IH]; [constructor|].
  cbn [visit_order]. eapply perm_trans; [|apply insert_entry_perm].
  now apply perm_skip.
Qed.

Lemma insert_entry_hd (a e : string * node) (l : list (string * node)) :
  HdRel name_le a l -> name_le a e -> HdRel name_le a (insert_entry e l).
Proof.
  intros Hl He. destruct l as [|y l]; cbn [insert_entry].
  - now constructor.
  - destruct (String.leb (fst e) (fst y)); constructor;
      [assumption | now inversion Hl].
Qed.

Lemma insert_entry_sorted (e : string * node) (l : list (string * node)) :
  Sorted name_le l -> Sorted name_le (insert_entry e l).
Proof.
  induction 1 as [|y l Hs IH Hhd]; cbn [insert_entry].
  - repeat constructor.
  - destruct (String.leb (fst e) (fst y)) eqn:E.
    + constructor; [now constructor|]. constructor. now apply leb_lex_le.
    + constructor; [exact IH|]. apply insert_entry_hd; [exact Hhd|].
      destruct (lex_le_total (fst y) (fst e)) as [H|H]; [exact H|].
      apply leb_lex_le in H. congruence.
Qed.

Lemma visit_order_sorted (l : list (string * node)) :
  StronglySorted name_le (visit_order l).
Proof.
  apply Sorted_StronglySorted.
  - intros x y z. apply lex_le_trans.
  - induction l as [|e l IH]; [constructor|].
    cbn [visit_order]. now apply insert_entry_sorted.
Qed.

End NameOrder.

(* ================================================================== *)
(** ** The structure-document generator: properties *)
(* ================================================================== *)

Section DocProperties.

Import StructureDoc.

Lemma node_tree_ind (P : node -> Prop) :
  P File -> P Special ->
  (forall entries, Forall (fun e => P (snd e)) entries -> P (Dir entries)) ->
  forall n, P n.
Proof.
  intros HF HS HD. fix IH 1. intros [| |entries]; [exact HF | exact HS |].
  apply HD. induction entries as [|[name n] rest IHr]; constructor.
  - apply IH.
  - exact IHr.
Qed.

(** The body of the loop for one name. *)
Definition visit (entries : list (string * node)) (prefix item : string)
  : result (list string) :=
  match child entries item with
  | Some (Dir es) =>
      sub <- generate_file_structure (Dir es) (prefix ++ "  ")%string ;;
      Ok (dir_line prefix item :: sub)
  | _ => Ok [file_line prefix item]
  end.

Lemma for_each_ext (f g : string -> result (list string)) (l : list string) :
  (forall x, f x = g x) -> for_each f l = for_each g l.
Proof.
  intros H. induction l as [|x l IH]; [reflexivity|].
  cbn [for_each]. now rewrite H, IH.
Qed.

Lemma generate_unfold (entries : list (string * node)) (prefix : string) :
  generate_file_structure (Dir entries) prefix
  = for_each (visit entries prefix) (sorted (map fst entries)).
Proof.
  cbn [generate_file_structure]. apply for_each_ext. intros item.
  unfold visit, child.
  induction entries as [|[name n] rest IH]; [reflexivity|].
  cbn [dict_get]. destruct (String.eqb name item); [|exact IH].
  destruct n; reflexivity.
Qed.

Lemma dict_get_In {V : Type} (key : string) (d : list (string * V)) (v : V) :
  dict_get key d = Some v -> In (key, v) d.
Proof.
  induction d as [|[k v0] d IH]; [discriminate|].
  cbn [dict_get]. destruct (String.eqb_spec k key) as [->|_].
  - intros H; injection H as ->. now left.
  - intros H. right. now apply IH.
Qed.

Lemma child_of_distinct (entries : list (string * node)) (name : string) (n : node) :
  distinct (map fst entries) = true ->
  In (name, n) entries ->
  child entries name = Some n.
Proof.
  unfold child. induction entries as [|[k v] rest IH]; intros Hd Hin.
  - destruct Hin.
  - cbn [map fst distinct] in Hd. apply andb_true_iff in Hd.
    destruct Hd as [Hk Hr]. apply negb_true_iff in Hk.
    cbn [dict_get]. destruct Hin as [Heq|Hin].
    + injection Heq as -> ->. now rewrite String.eqb_refl.
    + destruct (String.eqb_spec k name) as [->|_]; [|now apply IH].
      exfalso.
      assert (Hex : existsb (String.eqb name) (map fst rest) = true).
      { apply existsb_exists. exists name. split; [|apply String.eqb_refl].
        apply in_map_iff. now exists (name, n). }
      congruence.
Qed.


Lemma wf_children (entries : list (string * node)) (e : string * node) :
  wf (Dir entries) = true -> In e entries -> wf (snd e) = true.
Proof.
  cbn [wf]. intros H Hin. apply andb_true_iff in H. destruct H as [_ H].
  rewrite forallb_forall in H. now apply H.
Qed.

Lemma wf_distinct (entries : list (string * node)) :
  wf (Dir entries) = true -> distinct (map fst entries) = true.
Proof.
  cbn [wf]. intros H. apply andb_true_iff in H. destruct H as [H _].
  apply andb_true_iff in H. now destruct H.
Qed.

Lemma generate_listing (n : node) :
  forall entries depth,
    n = Dir entries ->
    wf n = true ->
    exists lines,
      generate_file_structure n (indent depth) = Ok lines /\
      listing depth entries lines.
Proof.
  induction n as [| |es IH] using node_tree_ind; intros entries depth E Hwf;
    try discriminate.
  injection E as <-. rewrite generate_unfold, <- visit_order_names.
  rewrite Forall_forall in IH.
  assert (G : forall l, (forall e, In e l -> In e es) ->
                        exists lines,
                          for_each (visit es (indent depth)) (map fst l) = Ok lines /\
                          blocks depth l lines).
  { induction l as [|[name c] l IHl]; intros Hsub.
    - exists []. split; [reflexivity | constructor].
    - destruct IHl as [tail [Ht Hb]].
      { intros e He. apply Hsub. now right. }
      pose proof (Hsub _ (or_introl eq_refl)) as Hin.
      cbn [map fst for_each]. rewrite Ht. unfold visit.
      rewrite (child_of_distinct es name c (wf_distinct es Hwf) Hin).
      destruct c as [| |sub_entries].
      + eexists. split; [reflexivity|]. apply blocks_other; [reflexivity | exact Hb].
      + eexists. split; [reflexivity|]. apply blocks_other; [reflexivity | exact Hb].
      + destruct (IH _ Hin sub_entries (S depth) eq_refl
                     (wf_children es _ Hwf Hin)) as [sub [Hs Hl]].
        cbn [snd indent] in Hs. rewrite Hs. cbn [bind].
        eexists. split; [reflexivity|]. unfold dir_line.
        now apply blocks_dir. }
  destruct (G (visit_order es)) as [lines [Hg Hb]].
  { intros e He. eapply Permutation_in; [|exact He].
    apply Permutation_sym, visit_order_perm. }
  exists lines. split; [exact Hg|].
  apply listing_sorted with (order := visit_order es);
    [apply visit_order_perm | apply visit_order_sorted | exact Hb].
Qed.

(** C7.  In a directory tree (names distinct within each directory), the
    lines produced for a directory at nesting depth [depth] are its listing:
    the entries taken in lexicographic order of name, whatever their kind,
    a directory as ["<indent>- <name>/"] followed by its own listing one
    level deeper, any other entry as ["<indent>- <name>"], the indent being
    two spaces per level. *)
Theorem structure_lines_follow_listing
    (entries : list (string * node)) (depth : nat) :
  wf (Dir entries) = true ->
  exists lines,
    generate_file_structure (Dir entries) (indent depth) = Ok lines /\
    listing depth entries lines.
Proof.
  intros Hwf. now apply (generate_listing (Dir entries)).
Qed.






End DocProperties.

(* ================================================================== *)
(** ** Concrete runs *)
(* ================================================================== *)

(** The scenario of the specification: the unrelated configuration stays,
    the stale one goes, the new executable gets its entry. *)
Example scenario_run :
  Launch.run scenario_world = (Ok tt, scenario_after).
Proof. reflexivity. Qed.

Example is_test_program_mixed_case :
  Launch.is_test_program (JStr "C:\proj\BUILD\athenatests\T.exe") = true /\
  Launch.is_test_program (JStr "${workspaceFolder}/build/Other/T.exe") = false /\
  Launch.is_test_program (JInt 7) = false.
Proof. repeat split; reflexivity. Qed.

Module DocRuns.

Import StructureDoc.

Definition src_tree : list (string * node) :=
  [ ("main.cpp", File);
    ("core", Dir [("b.h", File); ("a.cpp", File); ("detail", Dir [])]);
    ("Zeta.txt", File) ].

Definition project : world :=
  {| parent_dir := [("src", Dir src_tree); ("docs", Dir [])];
     output_text := "";
     disk := Accepts |}.



End DocRuns.

Import DocRuns.

Example src_tree_lines :
  StructureDoc.generate_file_structure (Dir src_tree) ""
  = Ok [ "- Zeta.txt";
         "- core/";
         "  - a.cpp";
         "  - b.h";
         "  - detail/";
         "- main.cpp" ].
Proof. reflexivity. Qed.

Example project_output_lines :
  StructureDoc.output_lines (StructureDoc.parent_dir project)
  = Ok [ StructureDoc.title;
         "## `src/`";
         "- Zeta.txt";
         "- core/";
         "  - a.cpp";
         "  - b.h";
         "  - detail/";
         "- main.cpp";
         "";
         StructureDoc.not_found "tests" ].
Proof. reflexivity. Qed.

Lemma structure_lines_follow_listing_witness :
  exists lines,
    StructureDoc.generate_file_structure (Dir src_tree) (StructureDoc.indent 0)
    = Ok lines /\
    StructureDoc.listing 0 src_tree lines.
Proof.
  apply (structure_lines_follow_listing src_tree 0). reflexivity.
Defined.



Example project_document :
  exists w',
    StructureDoc.main project = (Ok tt, w') /\
    StructureDoc.output_file w'
    = Some (String.concat (String "010" "")
              [ "# Current Code Directory Structure" ++ String "010" "";
                "## `src/`";
                "- Zeta.txt";
                "- core/";
                "  - a.cpp";
                "  - b.h";
                "  - detail/";
                "- main.cpp";
                "";
                "## `tests/` not found." ++ String "010" "" ]%string).
Proof. eexists. split; reflexivity. Qed.

(* ================================================================== *)
(** ** The launch-configuration synchronizer: failures and exit status *)
(* ================================================================== *)

Section LaunchFailures.

Context {J : JsonModule}.

Import Launch.

Definition is_exit (e : exn) : bool :=
  match e with
  | SystemExit _ => true
  | _ => false
  end.

Lemma load_data_not_exit (w : world) (e : exn) :
  load_data w = Raise e -> is_exit e = false.
Proof.
  unfold load_data, load.
  destruct (launch_file w) as [t|]; [|discriminate].
  destruct (json_load t) as [data|]; cbn [bind].
  - destruct data as [| | | | | |fields]; cbn [py_get bind];
      try (intros H; injection H as <-; reflexivity).
    destruct (dict_get "configurations" fields) as [shown|]; cbn [bind].
    + destruct shown; cbn [py_len bind]; try discriminate;
        intros H; injection H as <-; reflexivity.
    + discriminate.
  - intros H; injection H as <-; reflexivity.
Qed.

Lemma preserved_configs_not_exit (data : json) (e : exn) :
  preserved_configs data = Raise e -> is_exit e = false.
Proof.
  unfold preserved_configs.
  destruct (py_getitem data "configurations") as [configurations|e0] eqn:Hg;
    cbn [bind].
  - destruct (py_iter configurations) as [items|e1] eqn:Hi; cbn [bind].
    + intros H. apply comprehension_raise in H. now subst.
    + intros H; injection H as <-.
      destruct configurations; cbn in Hi; try discriminate;
        injection Hi as <-; reflexivity.
  - intros H; injection H as <-.
    destruct data as [| | | | | |fields]; cbn in Hg;
      try (injection Hg as <-; reflexivity).
    destruct (dict_get "configurations" fields); [discriminate|].
    injection Hg as <-; reflexivity.
Qed.

Lemma new_data_raise_status (w : world) (e : exn) :
  new_data w = Raise e -> exit_status e = 1%Z.
Proof.
  unfold new_data.
  destruct (load_data w) as [data|e0] eqn:HL; cbn [bind].
  - destruct (preserved_configs data) as [kept|e1] eqn:HP; cbn [bind].
    + destruct (build_path w) as [dir|].
      * destruct dir; cbn [listdir bind];
          try (intros H; injection H as <-; reflexivity).
        destruct data; cbn [py_setitem]; try discriminate;
          intros H; injection H as <-; reflexivity.
      * intros H; injection H as <-; reflexivity.
    + intros H; injection H as <-. now apply preserved_configs_raise in HP.
  - intros H; injection H as <-. now apply load_data_raise in HL.
Qed.

(** X1.  Text that is not JSON makes [json.load] raise; nothing is written,
    whatever the build-output directory holds. *)
Theorem malformed_launch_file_aborts (w : world) (t : text) :
  launch_file w = Some t ->
  json_load t = None ->
  run w = (Raise JSONDecodeError, w).
Proof.
  intros Ht Hl. unfold run, new_data, load_data, load.
  now rewrite Ht, Hl.
Qed.

Lemma comprehension_stops (items : list json) :
  (exists cfg, In cfg items /\ is_dict cfg = false) ->
  filter_r keeps items = Raise AttributeError.
Proof.
  intros [cfg [Hin Hd]].
  destruct (filter_r keeps items) as [kept|e] eqn:E.
  - apply comprehension_inv in E. destruct E as [Hall _].
    unfold all_dicts in Hall. rewrite Forall_forall in Hall.
    rewrite (Hall cfg Hin) in Hd. discriminate.
  - now rewrite (comprehension_raise _ _ E).
Qed.

(** X2.  One element of [configurations] that is not an object is enough
    to stop the run: [cfg.get] raises [AttributeError] and the file is left
    as it was, the other elements notwithstanding. *)
Theorem non_object_configuration_aborts
    (w : world) (t : text) fields (C : list json) :
  launch_file w = Some t ->
  json_load t = Some (JObj fields) ->
  dict_get "configurations" fields = Some (JArr C) ->
  (exists cfg, In cfg C /\ is_dict cfg = false) ->
  run w = (Raise AttributeError, w).
Proof.
  intros Ht Hl Hc Hbad.
  unfold run, new_data, load_data, load, preserved_configs.
  rewrite Ht, Hl. cbn [bind py_get]. rewrite Hc.
  cbn [bind py_len py_getitem]. rewrite Hc. cbn [bind py_iter].
  now rewrite (comprehension_stops C Hbad).
Qed.

(** X3.  The guard before [os.listdir] tests existence only: when
    [build_path] exists and is not a directory the run gets past it and
    [os.listdir] raises [NotADirectoryError]; nothing is written. *)
Theorem build_path_not_a_directory_aborts
    (w : world) (data : json) (kept : list json) (n : node) :
  load_data w = Ok data ->
  preserved_configs data = Ok kept ->
  build_path w = Some n ->
  isdir (Some n) = false ->
  run w = (Raise NotADirectoryError, w).
Proof.
  intros HL HP Hb Hn. unfold run, new_data.
  rewrite HL. cbn [bind]. rewrite HP. cbn [bind]. rewrite Hb.
  destruct n; try discriminate; reflexivity.
Qed.

(** X4.  A run either writes the file and exits with status 0, or leaves
    the world untouched and exits with status 1: the [exit(1)] of a missing
    build-output directory and an uncaught exception give the same
    status. *)
Theorem exit_status_is_zero_or_one (w : world) :
  (status (fst (run w)) = 0%Z /\ exists d, run w = (Ok tt, write d w)) \/
  (status (fst (run w)) = 1%Z /\ snd (run w) = w).
Proof.
  unfold run. destruct (new_data w) as [d|e] eqn:E.
  - left. split; [reflexivity | now exists d].
  - right. split; [|reflexivity]. cbn [fst status].
    now apply new_data_raise_status in E.
Qed.

(** X5.  The run ends in [exit(1)] exactly when the build-output directory
    is missing and launch.json could be loaded and filtered: a launch.json
    that fails to load or to filter stops the run before the directory is
    looked at. *)
Theorem exit_reached_iff (w : world) :
  run w = (Raise (SystemExit 1), w) <->
  build_path w = None /\
  exists data kept,
    load_data w = Ok data /\ preserved_configs data = Ok kept.
Proof.
  unfold run, new_data. split.
  - destruct (load_data w) as [data|e0] eqn:HL; cbn [bind].
    + destruct (preserved_configs data) as [kept|e1] eqn:HP; cbn [bind].
      * destruct (build_path w) as [dir|].
        -- destruct dir; cbn [listdir bind]; try discriminate.
           destruct data; cbn [py_setitem]; discriminate.
        -- intros _. split; [reflexivity|]. now exists data, kept.
      * intros H. injection H as ->.
        apply preserved_configs_not_exit in HP. discriminate.
    + intros H. injection H as ->.
      apply load_data_not_exit in HL. discriminate.
  - intros [Hb [data [kept [HL HP]]]].
    rewrite HL. cbn [bind]. rewrite HP. cbn [bind]. now rewrite Hb.
Qed.


End LaunchFailures.

(* ================================================================== *)
(** ** The launch-configuration synchronizer: what a run keeps and adds *)
(* ================================================================== *)

Section LaunchContent.

Context {J : JsonModule}.

Import Launch.

Lemma dict_set_keys {V : Type} (key : string) (v v0 : V) (d : list (string * V)) :
  dict_get key d = Some v0 -> map fst (dict_set key v d) = map fst d.
Proof.
  induction d as [|[k x] d IH]; [discriminate|].
  cbn [dict_get dict_set]. destruct (String.eqb k key); [reflexivity|].
  intros H. cbn [map fst]. now rewrite IH.
Qed.

Lemma dict_get_set_other {V : Type} (k key : string) (v : V) (d : list (string * V)) :
  k <> key -> dict_get k (dict_set key v d) = dict_get k d.
Proof.
  intros Hk. induction d as [|[k0 x] d IH]; cbn [dict_get dict_set].
  - destruct (String.eqb_spec key k); [congruence | reflexivity].
  - destruct (String.eqb_spec k0 key) as [->|Hne]; cbn [dict_get].
    + destruct (String.eqb_spec key k); [congruence | reflexivity].
    + now rewrite IH.
Qed.

(** X7.  A run that writes the file changes nothing but the value under
    [configurations]: the written object has the keys of the loaded one, in
    the same order, and every other key keeps its value. *)
Theorem other_keys_survive (w w' : world) :
  run w = (Ok tt, w') ->
  exists fields fields',
    load_data w = Ok (JObj fields) /\
    launch_file w' = Some (json_dump (JObj fields')) /\
    map fst fields' = map fst fields /\
    forall k, k <> "configurations" -> dict_get k fields' = dict_get k fields.
Proof.
  intros H. apply run_ok_inv in H.
  destruct H as (fields & c & items & entries & H1 & H2 & H3 & H4 & H5 & ->).
  exists fields. eexists. split; [exact H1|]. split; [reflexivity|]. split.
  - now apply dict_set_keys with (v0 := c).
  - intros k Hk. now apply dict_get_set_other.
Qed.

Lemma make_config_injective (a b : string) :
  make_config a = make_config b -> a = b.
Proof.
  intros H. apply (f_equal (fun cfg => field cfg "name")) in H.
  cbn in H. now injection H.
Qed.

Lemma distinct_NoDup (names : list string) :
  distinct names = true -> NoDup names.
Proof.
  induction names as [|n names IH]; [constructor|].
  cbn [distinct]. intros H. apply andb_true_iff in H. destruct H as [Hn Hr].
  constructor; [|now apply IH].
  intros Hin. apply negb_true_iff in Hn.
  assert (existsb (String.eqb n) names = true); [|congruence].
  apply existsb_exists. exists n. split; [exact Hin | apply String.eqb_refl].
Qed.

(** X8.  Distinct names in the build-output directory give pairwise
    distinct synthesized configurations: a run never writes the same new
    entry twice. *)
Theorem synthesized_configs_distinct (entries : list (string * node)) :
  distinct (map fst entries) = true ->
  NoDup (test_configs (test_executables (Dir entries) (map fst entries))).
Proof.
  intros Hd. unfold test_configs, test_executables.
  assert (Hn : NoDup (filter (is_test_executable (Dir entries)) (map fst entries))).
  { apply NoDup_filter. now apply distinct_NoDup. }
  induction Hn as [|exe names Hout _ IH]; cbn [map]; constructor; [|exact IH].
  rewrite in_map_iff. intros [other [E Hin]].
  apply make_config_injective in E. now subst.
Qed.

Lemma path_join_build_dir (exe : string) :
  valid_name exe = true ->
  path_join build_dir exe = (build_dir ++ "/" ++ exe)%string.
Proof.
  intros Hv. unfold valid_name in Hv. apply andb_true_iff in Hv.
  destruct Hv as [_ Hs]. apply negb_true_iff in Hs.
  unfold path_join, startswith.
  destruct (String.prefix "/" exe) eqn:E; [|reflexivity].
  destruct exe as [|c exe]; cbn [contains] in Hs; rewrite E in Hs; discriminate.
Qed.

(** X9.  The configuration synthesized for a directory entry points at
    [${workspaceFolder}/build/AthenaTests/<name>], and the comprehension of
    a later run discards it: what a run adds, the next run recognises as its
    own. *)
Theorem synthesized_config_is_stale (exe : string) :
  valid_name exe = true ->
  field (make_config exe) "program"
  = Some (JStr ("${workspaceFolder}/build/AthenaTests/"
                ++ replace backslash slash exe)) /\
  keeps (make_config exe) = Ok false.
Proof.
  intros Hv. split.
  - change (field (make_config exe) "program")
      with (Some (JStr ("${workspaceFolder}/" ++
                        replace backslash slash (path_join build_dir exe)))).
    rewrite (path_join_build_dir exe Hv). unfold replace.
    rewrite !map_chars_app. reflexivity.
  - unfold make_config. rewrite keeps_dict. fold (make_config exe).
    unfold preserved. now rewrite (fresh_config_is_stale exe Hv).
Qed.

Lemma map_chars_compose (f g : ascii -> ascii) (s : string) :
  map_chars f (map_chars g s) = map_chars (fun c => f (g c)) s.
Proof. induction s as [|c s IH]; cbn; [reflexivity | now rewrite IH]. Qed.

Lemma map_chars_ext (f g : ascii -> ascii) (s : string) :
  (forall c, f c = g c) -> map_chars f s = map_chars g s.
Proof.
  intros H. induction s as [|c s IH]; cbn; [reflexivity | now rewrite H, IH].
Qed.

Lemma lower_replace_commute (s : string) :
  lower (replace backslash slash s) = replace backslash slash (lower s).
Proof.
  unfold lower, replace. rewrite !map_chars_compose. apply map_chars_ext.
  intros [[] [] [] [] [] [] [] []]; reflexivity.
Qed.

(** X10.  The test compares paths up to letter case and up to the kind of
    separator: two [program] strings that differ only in the case of their
    letters, or only in using backslashes for slashes, are classified
    alike. *)
Theorem is_test_program_ignores_case_and_separators (p q : string) :
  lower p = lower q \/
  replace backslash slash p = replace backslash slash q ->
  is_test_program (JStr p) = is_test_program (JStr q).
Proof.
  intros H. unfold is_test_program. cbn [is_str negb]. f_equal.
  destruct H as [H|H].
  - now rewrite !lower_replace_commute, H.
  - now rewrite H.
Qed.

(** X11.  The names discovered in a build-output directory with distinct
    names are those of its regular files that end in [.exe]; a directory or
    a special file of such a name is passed over. *)
Theorem test_executables_are_exe_files
    (entries : list (string * node)) (f : string) :
  distinct (map fst entries) = true ->
  (In f (test_executables (Dir entries) (map fst entries)) <->
   In (f, File) entries /\ exists stem, f = (stem ++ ".exe")%string).
Proof.
  intros Hd. unfold test_executables, is_test_executable.
  rewrite filter_In, andb_true_iff, endswith_iff. cbn [lookup]. split.
  - intros [_ [Hexe Hfile]]. split; [|exact Hexe].
    destruct (child entries f) as [[| |]|] eqn:Hc; try discriminate.
    now apply dict_get_In in Hc.
  - intros [Hin Hexe]. split; [|split; [exact Hexe|]].
    + apply in_map_iff. now exists (f, File).
    + now rewrite (child_of_distinct entries f File Hd Hin).
Qed.

(** The world as a run left it, once the build-output directory changed. *)
Definition with_build_path (w : world) (dir : option node) : world :=
  {| launch_file := launch_file w; build_path := dir |}.

(** X12.  An earlier run leaves no trace in a later one: once the
    build-output directory has changed, running on the file the earlier run
    wrote gives the file a single run on the original launch.json gives. *)
Theorem later_run_forgets_earlier_directory
    (w w1 : world) (entries2 : list (string * node)) :
  (forall dir, build_path w = Some dir -> wf dir = true) ->
  (forall d, new_data w = Ok d -> json_load (json_dump d) = Some d) ->
  run w = (Ok tt, w1) ->
  exists w2,
    run (with_build_path w (Some (Dir entries2))) = (Ok tt, w2) /\
    run (with_build_path w1 (Some (Dir entries2))) = (Ok tt, w2).
Proof.
  intros Hwf Hrt Hrun.
  apply run_ok_inv in Hrun.
  destruct Hrun as (fields & c & items & entries & H1 & H2 & H3 & H4 & H5 & ->).
  pose proof (new_data_intro w fields c items entries H1 H2 H3 H4 H5) as Hn.
  specialize (Hrt _ Hn). specialize (Hwf _ H5).
  set (names := test_executables (Dir entries) (map fst entries)) in *.
  set (R := filter preserved items ++ test_configs names).
  assert (Hnames : forallb valid_name names = true).
  { unfold names, test_executables. apply forallb_filter.
    cbn [wf] in Hwf. apply andb_true_iff in Hwf. destruct Hwf as [Hwf _].
    apply andb_true_iff in Hwf. now destruct Hwf. }
  destruct (fresh_configs_filtered names Hnames) as [Hf1 _].
  set (dir2 := Some (Dir entries2)).
  assert (Ha : new_data (with_build_path w dir2)
               = Ok (synchronized fields items entries2)).
  { now apply new_data_intro with (configurations := c). }
  assert (HL : load_data
                 (with_build_path (write (synchronized fields items entries) w) dir2)
               = Ok (JObj (dict_set "configurations" (JArr R) fields))).
  { unfold load_data, load, with_build_path, write. cbn [launch_file].
    rewrite Hrt. unfold synchronized. fold names. fold R.
    cbn [bind py_get]. rewrite dict_get_set. reflexivity. }
  assert (HR : filter preserved R = filter preserved items).
  { unfold R. rewrite filter_app, filter_preserved_twice, Hf1.
    apply app_nil_r. }
  assert (Hb : new_data
                 (with_build_path (write (synchronized fields items entries) w) dir2)
               = Ok (synchronized fields items entries2)).
  { rewrite (new_data_intro _ _ (JArr R) R entries2 HL
               (dict_get_set _ _ _) eq_refl
               (all_dicts_synchronized items names H4) eq_refl).
    unfold synchronized. rewrite HR. now rewrite dict_set_set. }
  exists (write (synchronized fields items entries2) (with_build_path w dir2)).
  unfold run. rewrite Ha, Hb. split; reflexivity.
Qed.

End LaunchContent.

(* ================================================================== *)
(** ** The structure-document generator: shape of the output *)
(* ================================================================== *)

Section DocShape.

Import StructureDoc.


Lemma indent_shift (k : nat) : ("  " ++ indent k = indent k ++ "  ")%string.
Proof.
  induction k as [|k IH]; [reflexivity|].
  cbn [indent]. now rewrite <- append_assoc, IH.
Qed.

Lemma for_each_cons_inv (f : string -> result (list string))
    (item : string) (items : list string) (lines : list string) :
  for_each f (item :: items) = Ok lines ->
  exists block tail,
    f item = Ok block /\ for_each f items = Ok tail /\ lines = block ++ tail.
Proof.
  cbn [for_each]. destruct (f item) as [block|]; [|discriminate].
  cbn [bind]. destruct (for_each f items) as [tail|]; [|discriminate].
  cbn [bind]. intros H. injection H as <-. now exists block, tail.
Qed.

Lemma for_each_block (f : string -> result (list string))
    (items : list string) (lines : list string) (item : string) :
  for_each f items = Ok lines ->
  In item items ->
  exists block, f item = Ok block /\ forall l, In l block -> In l lines.
Proof.
  revert lines; induction items as [|i items IH]; intros lines H Hin.
  - destruct Hin.
  - apply for_each_cons_inv in H. destruct H as (block & tail & Hb & Ht & ->).
    destruct Hin as [<-|Hin].
    + exists block. split; [exact Hb|]. intros l Hl. apply in_or_app. now left.
    + destruct (IH tail Ht Hin) as [blk [Hblk Hsub]].
      exists blk. split; [exact Hblk|]. intros l Hl. apply in_or_app.
      right. now apply Hsub.
Qed.

Lemma insert_In (x y : string) (l : list string) :
  In y (insert x l) <-> y = x \/ In y l.
Proof.
  induction l as [|z l IH]; cbn [insert].
  - cbn [In]. intuition.
  - destruct (String.leb x z); cbn [In]; [intuition|].
    rewrite IH. cbn [In]. intuition.
Qed.

Lemma sorted_In (y : string) (l : list string) :
  In y (sorted l) <-> In y l.
Proof.
  induction l as [|x l IH]; cbn [sorted]; [reflexivity|].
  rewrite insert_In, IH. cbn [In]. intuition.
Qed.

Lemma dict_get_of_name {V : Type} (key : string) (d : list (string * V)) :
  In key (map fst d) -> dict_get key d <> None.
Proof.
  induction d as [|[k v] d IH]; cbn [map fst In dict_get]; [tauto|].
  intros [->|Hin].
  - now rewrite String.eqb_refl.
  - destruct (String.eqb k key); [discriminate | now apply IH].
Qed.

(** The entries below a directory, each with its nesting depth. *)
Inductive entry_at : list (string * node) -> nat -> string -> node -> Prop :=
| entry_here : forall entries name n,
    In (name, n) entries -> entry_at entries 0 name n
| entry_below : forall entries dir sub k name n,
    In (dir, Dir sub) entries ->
    entry_at sub k name n ->
    entry_at entries (S k) name n.

(** The line of an entry at depth [k] under [prefix]. *)
Definition bullet (prefix : string) (k : nat) (name : string) (n : node) : string :=
  prefix ++ indent k ++ "- " ++ name ++ (if isdir (Some n) then "/" else "").

Lemma append_empty (s : string) : (s ++ "")%string = s.
Proof. induction s as [|c s IH]; cbn; [reflexivity | now rewrite IH]. Qed.

Lemma bullet_file (prefix name : string) (n : node) :
  isdir (Some n) = false -> file_line prefix name = bullet prefix 0 name n.
Proof.
  intros H. unfold file_line, bullet. rewrite H. cbn [indent].
  now rewrite append_empty.
Qed.

Lemma bullet_dir (prefix name : string) (sub : list (string * node)) :
  dir_line prefix name = bullet prefix 0 name (Dir sub).
Proof. reflexivity. Qed.

Lemma bullet_deeper (prefix : string) (k : nat) (name : string) (n : node) :
  bullet (prefix ++ "  ") k name n = bullet prefix (S k) name n.
Proof.
  unfold bullet. cbn [indent].
  rewrite (append_assoc prefix "  "). f_equal.
  now rewrite <- (append_assoc "  " (indent k)), indent_shift, append_assoc.
Qed.

Lemma lines_are_entries (n : node) :
  forall entries prefix lines,
    n = Dir entries ->
    generate_file_structure n prefix = Ok lines ->
    forall line, In line lines ->
      exists k name c, entry_at entries k name c /\ line = bullet prefix k name c.
Proof.
  induction n as [| |es IH] using node_tree_ind; intros entries prefix lines E;
    try discriminate.
  injection E as <-. rewrite generate_unfold. rewrite Forall_forall in IH.
  assert (Hnames : forall item, In item (sorted (map fst es)) ->
                                In item (map fst es)).
  { intros item. apply sorted_In. }
  revert lines Hnames. generalize (sorted (map fst es)) as items.
  induction items as [|item items IHi]; intros lines Hnames H line Hin.
  - injection H as <-. destruct Hin.
  - apply for_each_cons_inv in H.
    destruct H as (block & tail & Hb & Ht & ->).
    apply in_app_or in Hin. destruct Hin as [Hin|Hin].
    2:{ apply (IHi tail); auto. intros i Hi. apply Hnames. now right. }
    unfold visit in Hb.
    destruct (child es item) as [c|] eqn:Hc.
    2:{ exfalso. apply (dict_get_of_name item es); [|exact Hc].
        apply Hnames. now left. }
    pose proof (dict_get_In _ _ _ Hc) as Hentry.
    destruct c as [| |sub].
    + injection Hb as <-. destruct Hin as [<-|[]].
      exists 0, item, File. split; [now constructor | now apply bullet_file].
    + injection Hb as <-. destruct Hin as [<-|[]].
      exists 0, item, Special. split; [now constructor | now apply bullet_file].
    + destruct (generate_file_structure (Dir sub) (prefix ++ "  ")%string)
        as [sublines|] eqn:Hs; [|discriminate].
      cbn [bind] in Hb. injection Hb as <-.
      destruct Hin as [<-|Hin].
      * exists 0, item, (Dir sub). split; [now constructor | apply bullet_dir].
      * destruct (IH _ Hentry sub _ _ eq_refl Hs line Hin)
          as (k & name & c & Hat & ->).
        exists (S k), name, c. split.
        -- now apply entry_below with (dir := item) (sub := sub).
        -- apply bullet_deeper.
Qed.

Lemma entries_have_lines (entries : list (string * node))
    (k : nat) (name : string) (c : node) :
  entry_at entries k name c ->
  forall prefix lines,
    wf (Dir entries) = true ->
    generate_file_structure (Dir entries) prefix = Ok lines ->
    In (bullet prefix k name c) lines.
Proof.
  induction 1 as [entries name n Hin|entries dir sub k name n Hin _ IH];
    intros prefix lines Hwf Hg; rewrite generate_unfold in Hg.
  - destruct (for_each_block _ _ _ name Hg) as [block [Hv Hsub]].
    { apply sorted_In, in_map_iff. now exists (name, n). }
    apply Hsub. unfold visit in Hv.
    rewrite (child_of_distinct entries name n (wf_distinct entries Hwf) Hin) in Hv.
    destruct n as [| |sub].
    + injection Hv as <-. left. now apply bullet_file.
    + injection Hv as <-. left. now apply bullet_file.
    + destruct (generate_file_structure (Dir sub) (prefix ++ "  ")%string);
        [|discriminate].
      cbn [bind] in Hv. injection Hv as <-. left. apply bullet_dir.
  - destruct (for_each_block _ _ _ dir Hg) as [block [Hv Hsub]].
    { apply sorted_In, in_map_iff. now exists (dir, Dir sub). }
    apply Hsub. unfold visit in Hv.
    rewrite (child_of_distinct entries dir (Dir sub) (wf_distinct entries Hwf) Hin)
      in Hv.
    destruct (generate_file_structure (Dir sub) (prefix ++ "  ")%string)
      as [sublines|] eqn:Hs; [|discriminate].
    cbn [bind] in Hv. injection Hv as <-. right.
    rewrite <- bullet_deeper. apply IH; [|exact Hs].
    exact (wf_children entries (dir, Dir sub) Hwf Hin).
Qed.

(** X14.  In a tree whose directories hold distinct names, the lines of a
    listing are exactly the bullets of the entries below the root, each at
    its own depth: the line of an entry [k] levels down is the caller's
    prefix, two spaces for each of the [k] levels, ["- "], the name of the
    entry, and ["/"] when the entry is a directory. *)
Theorem lines_render_entries_at_depth
    (entries : list (string * node)) (prefix : string) (lines : list string) :
  wf (Dir entries) = true ->
  generate_file_structure (Dir entries) prefix = Ok lines ->
  forall line,
    In line lines <->
    exists k name n,
      entry_at entries k name n /\
      line = (prefix ++ indent k ++ "- " ++ name
                     ++ (if isdir (Some n) then "/" else ""))%string.
Proof.
  intros Hwf Hg line. split.
  - intros Hin. exact (lines_are_entries (Dir entries) entries prefix lines
                         eq_refl Hg line Hin).
  - intros (k & name & n & Hat & ->).
    exact (entries_have_lines entries k name n Hat prefix lines Hwf Hg).
Qed.

(** The number of entries below a node, at every depth. *)
Fixpoint entry_count (n : node) : nat :=
  match n with
  | Dir entries =>
      (fix below (l : list (string * node)) : nat :=
         match l with
         | [] => 0
         | (_, c) :: rest => S (entry_count c) + below rest
         end) entries
  | _ => 0
  end.

Definition entries_count (l : list (string * node)) : nat :=
  entry_count (Dir l).

Lemma entries_count_cons (name : string) (c : node) (l : list (string * node)) :
  entries_count ((name, c) :: l) = S (entry_count c) + entries_count l.
Proof. reflexivity. Qed.

Lemma entries_count_perm (l l' : list (string * node)) :
  Permutation l l' -> entries_count l = entries_count l'.
Proof.
  induction 1 as [|[name c] l l' _ IH|[n1 c1] [n2 c2] l|l1 l2 l3 _ IH1 _ IH2].
  - reflexivity.
  - now rewrite !entries_count_cons, IH.
  - rewrite !entries_count_cons. lia.
  - now rewrite IH1.
Qed.

Lemma line_per_entry (n : node) :
  forall entries prefix lines,
    n = Dir entries ->
    wf n = true ->
    generate_file_structure n prefix = Ok lines ->
    List.length lines = entry_count n.
Proof.
  induction n as [| |es IH] using node_tree_ind;
    intros entries prefix lines E Hwf; try discriminate.
  clear E entries. rewrite generate_unfold, <- visit_order_names.
  rewrite Forall_forall in IH.
  fold (entries_count es). rewrite (entries_count_perm _ _ (visit_order_perm es)).
  assert (Hsub : forall e, In e (visit_order es) -> In e es).
  { intros e He. eapply Permutation_in; [|exact He].
    apply Permutation_sym, visit_order_perm. }
  revert lines Hsub. generalize (visit_order es) as l.
  induction l as [|[name c] l IHl]; intros lines Hsub H.
  - injection H as <-. reflexivity.
  - cbn [map fst] in H. apply for_each_cons_inv in H.
    destruct H as (block & tail & Hb & Ht & ->).
    pose proof (Hsub _ (or_introl eq_refl)) as Hin.
    rewrite length_app, entries_count_cons.
    rewrite (IHl tail (fun e He => Hsub e (or_intror He)) Ht).
    unfold visit in Hb.
    rewrite (child_of_distinct es name c (wf_distinct es Hwf) Hin) in Hb.
    destruct c as [| |sub_entries]; try (injection Hb as <-; reflexivity).
    destruct (generate_file_structure (Dir sub_entries) (prefix ++ "  ")%string)
      as [sub|] eqn:Hs; [|discriminate].
    cbn [bind] in Hb. injection Hb as <-.
    cbn [List.length].
    now rewrite (IH _ Hin sub_entries _ sub eq_refl (wf_children es _ Hwf Hin) Hs).
Qed.

(** X15.  In a tree whose directories hold distinct names the listing has
    one line for each entry below the root, at any depth: nothing is
    skipped and nothing is listed twice. *)
Theorem one_line_per_entry
    (entries : list (string * node)) (prefix : string) (lines : list string) :
  wf (Dir entries) = true ->
  generate_file_structure (Dir entries) prefix = Ok lines ->
  List.length lines = entry_count (Dir entries).
Proof.
  intros Hwf H. now apply (line_per_entry (Dir entries) entries prefix).
Qed.

End DocShape.

(* ================================================================== *)
(** ** The structure-document generator: the order of [os.listdir] *)
(* ================================================================== *)

(** Two nodes that hold the same tree, their directories listed in
    possibly different orders. *)
Inductive same_tree : node -> node -> Prop :=
| same_file : same_tree File File
| same_special : same_tree Special Special
| same_dir : forall es es', same_entries es es' -> same_tree (Dir es) (Dir es')
with same_entries : list (string * node) -> list (string * node) -> Prop :=
| same_nil : same_entries [] []
| same_skip : forall name n n' es es',
    same_tree n n' -> same_entries es es' ->
    same_entries ((name, n) :: es) ((name, n') :: es')
| same_swap : forall e1 e2 es es',
    same_entries es es' ->
    same_entries (e1 :: e2 :: es) (e2 :: e1 :: es')
| same_trans : forall es1 es2 es3,
    same_entries es1 es2 -> same_entries es2 es3 -> same_entries es1 es3.

Scheme same_tree_min := Minimality for same_tree Sort Prop
  with same_entries_min := Minimality for same_entries Sort Prop.

Section ListdirOrder.

Import StructureDoc.

Lemma leb_trans (a b c : string) :
  String.leb a b = true -> String.leb b c = true -> String.leb a c = true.
Proof.
  rewrite !leb_lex_le. apply lex_le_trans.
Qed.

Lemma leb_false_le (a b : string) :
  String.leb a b = false -> String.leb b a = true.
Proof.
  intros H. destruct (String.leb_total a b) as [H'|H']; congruence.
Qed.

Lemma insert_insert (x y : string) (l : list string) :
  insert x (insert y l) = insert y (insert x l).
Proof.
  induction l as [|z l IH].
  - cbn [insert].
    destruct (String.leb x y) eqn:Exy, (String.leb y x) eqn:Eyx; try reflexivity.
    + now rewrite (String.leb_antisym _ _ Exy Eyx).
    + apply leb_false_le in Exy. congruence.
  - cbn [insert].
    destruct (String.leb y z) eqn:Eyz, (String.leb x z) eqn:Exz;
      destruct (String.leb x y) eqn:Exy, (String.leb y x) eqn:Eyx;
      cbn [insert]; rewrite ?Exz, ?Eyz, ?Exy, ?Eyx;
      try reflexivity;
      try (now rewrite IH);
      try (apply leb_false_le in Exy; congruence);
      try (rewrite (leb_trans _ _ _ Exy Eyz) in Exz; discriminate);
      try (rewrite (leb_trans _ _ _ Eyx Exz) in Eyz; discriminate).
    now rewrite (String.leb_antisym _ _ Exy Eyx).
Qed.

Lemma sorted_perm (l l' : list string) :
  Permutation l l' -> sorted l = sorted l'.
Proof.
  induction 1 as [|x l l' _ IH|x y l|l1 l2 l3 _ IH1 _ IH2]; cbn [sorted].
  - reflexivity.
  - now rewrite IH.
  - apply insert_insert.
  - now rewrite IH1.
Qed.

Lemma existsb_perm {A : Type} (f : A -> bool) (l l' : list A) :
  Permutation l l' -> existsb f l = existsb f l'.
Proof.
  induction 1 as [|x l l' _ IH|x y l|l1 l2 l3 _ IH1 _ IH2]; cbn [existsb].
  - reflexivity.
  - now rewrite IH.
  - now rewrite !orb_assoc, (orb_comm (f y)).
  - now rewrite IH1.
Qed.

Lemma wf_cons (name : string) (n : node) (es : list (string * node)) :
  wf (Dir ((name, n) :: es)) = true <->
  valid_name name = true /\
  existsb (String.eqb name) (map fst es) = false /\
  wf n = true /\
  wf (Dir es) = true.
Proof.
  cbn [wf map fst snd forallb distinct].
  rewrite !andb_true_iff, negb_true_iff. tauto.
Qed.

Lemma visit_cons (name : string) (n : node) (es : list (string * node))
    (prefix item : string) :
  visit ((name, n) :: es) prefix item =
  if String.eqb name item then
    match n with
    | Dir _ =>
        sub <- generate_file_structure n (prefix ++ "  ")%string ;;
        Ok (dir_line prefix item :: sub)
    | _ => Ok [file_line prefix item]
    end
  else visit es prefix item.
Proof.
  unfold visit, child. cbn [dict_get].
  destruct (String.eqb name item); [destruct n|]; reflexivity.
Qed.

Definition same_lines (n n' : node) : Prop :=
  wf n = true ->
  wf n' = true /\
  forall prefix, generate_file_structure n prefix
                 = generate_file_structure n' prefix.

Definition same_visits (es es' : list (string * node)) : Prop :=
  wf (Dir es) = true ->
  wf (Dir es') = true /\
  Permutation (map fst es) (map fst es') /\
  forall prefix item, visit es prefix item = visit es' prefix item.

Lemma same_lines_dir (es es' : list (string * node)) :
  same_visits es es' -> same_lines (Dir es) (Dir es').
Proof.
  intros IH Hwf. destruct (IH Hwf) as [Hwf' [Hp Hv]].
  split; [exact Hwf'|]. intros prefix.
  rewrite !generate_unfold, (sorted_perm _ _ Hp).
  apply for_each_ext. intros item. apply Hv.
Qed.

Lemma same_visits_skip name n n' es es' :
  same_tree n n' -> same_lines n n' -> same_visits es es' ->
  same_visits ((name, n) :: es) ((name, n') :: es').
Proof.
  intros Hn IHn IHes Hwf.
  apply wf_cons in Hwf. destruct Hwf as (Hv & Hout & Hwn & Hwes).
  destruct (IHn Hwn) as [Hwn' Hg]. destruct (IHes Hwes) as [Hwes' [Hp Hvis]].
  split; [|split].
  - apply wf_cons. repeat split; try assumption.
    now rewrite <- (existsb_perm _ _ _ Hp).
  - cbn [map fst]. now apply perm_skip.
  - intros prefix item. rewrite !visit_cons, Hvis.
    destruct (String.eqb name item); [|reflexivity].
    inversion Hn; subst; try reflexivity. now rewrite Hg.
Qed.

Lemma same_visits_swap e1 e2 es es' :
  same_visits es es' -> same_visits (e1 :: e2 :: es) (e2 :: e1 :: es').
Proof.
  destruct e1 as [k1 n1], e2 as [k2 n2]. intros IHes Hwf.
  apply wf_cons in Hwf. destruct Hwf as (Hv1 & Hout1 & Hwn1 & Hwf).
  apply wf_cons in Hwf. destruct Hwf as (Hv2 & Hout2 & Hwn2 & Hwes).
  destruct (IHes Hwes) as [Hwes' [Hp Hvis]].
  cbn [map fst existsb] in Hout1. apply orb_false_iff in Hout1.
  destruct Hout1 as [Hne Hout1].
  split; [|split].
  - apply wf_cons. repeat split; try assumption.
    + cbn [map fst existsb]. apply orb_false_iff. split.
      * now rewrite String.eqb_sym.
      * now rewrite <- (existsb_perm _ _ _ Hp).
    + apply wf_cons. repeat split; try assumption.
      now rewrite <- (existsb_perm _ _ _ Hp).
  - cbn [map fst]. eapply perm_trans; [apply perm_swap|].
    now do 2 apply perm_skip.
  - intros prefix item. rewrite !visit_cons, Hvis.
    destruct (String.eqb_spec k1 item) as [->|_];
      destruct (String.eqb_spec k2 item) as [->|_]; try reflexivity.
    rewrite String.eqb_refl in Hne. discriminate.
Qed.

Lemma same_visits_trans es1 es2 es3 :
  same_visits es1 es2 -> same_visits es2 es3 -> same_visits es1 es3.
Proof.
  intros IH1 IH2 Hwf.
  destruct (IH1 Hwf) as [Hwf2 [Hp1 Hv1]].
  destruct (IH2 Hwf2) as [Hwf3 [Hp2 Hv2]].
  split; [exact Hwf3|]. split; [eapply perm_trans; eassumption|].
  intros prefix item. now rewrite Hv1.
Qed.

Lemma same_listing (n n' : node) : same_tree n n' -> same_lines n n'.
Proof.
  apply (same_tree_min same_lines same_visits).
  - intros Hwf. now split.
  - intros Hwf. now split.
  - intros es es' _. apply same_lines_dir.
  - intros Hwf. split; [exact Hwf|]. split; [constructor | reflexivity].
  - intros name n0 n0' es es' Hn IHn _ IHes. now apply same_visits_skip.
  - intros e1 e2 es es' _. apply same_visits_swap.
  - intros es1 es2 es3 _ IH1 _ IH2. now apply same_visits_trans with es2.
Qed.

(** X16.  The listing does not depend on the order in which [os.listdir]
    returns the entries: two trees that differ only in the order of their
    directories, at any depth, give the same lines. *)
Theorem listing_ignores_listdir_order (root root' : node) (prefix : string) :
  same_tree root root' ->
  wf root = true ->
  generate_file_structure root prefix = generate_file_structure root' prefix.
Proof.
  intros Hs Hwf. now destruct (same_listing root root' Hs Hwf) as [_ Hg].
Qed.

End ListdirOrder.

(* ================================================================== *)
(** ** The structure-document generator: when [main] fails *)
(* ================================================================== *)

Section DocFailure.

Import StructureDoc.




End DocFailure.

(* ================================================================== *)
(** ** Further concrete runs *)
(* ================================================================== *)

Module MoreRuns.

Import Launch.

(** Text that [json.load] rejects. *)
Definition not_json : @text parsed_files := None.

Definition broken_text : @world parsed_files :=
  {| launch_file := Some not_json;
     build_path := Some (Dir [("App.exe", File)]) |}.

Definition mixed_configurations : list json :=
  [unrelated_config; JStr "Debug App.exe"].

Definition build_is_a_file : @world parsed_files :=
  on_disk (launch_json [unrelated_config]) (Some File).

Definition custom_launch_json : json :=
  JObj [("version", JStr "0.2.0");
        ("configurations", JArr [unrelated_config; make_config "Old.exe"]);
        ("compounds", JArr [])].

Definition custom_world : @world parsed_files :=
  on_disk custom_launch_json (Some (Dir [("New.exe", File)])).

Definition custom_after : @world parsed_files :=
  on_disk (JObj [("version", JStr "0.2.0");
                 ("configurations", JArr [unrelated_config; make_config "New.exe"]);
                 ("compounds", JArr [])])
          (Some (Dir [("New.exe", File)])).

Definition mixed_dir : list (string * node) :=
  [("App.exe", File); ("cache.exe", Dir []); ("App.pdb", File);
   ("Tests.exe", File); ("pipe.exe", Special)].

Definition later_dir : list (string * node) :=
  [("Bench.exe", File)].

Definition src_tree_reordered : list (string * node) :=
  [ ("Zeta.txt", File);
    ("main.cpp", File);
    ("core", Dir [("a.cpp", File); ("b.h", File); ("detail", Dir [])]) ].

Definition blocked_project : StructureDoc.world :=
  {| StructureDoc.parent_dir :=
       [("src", Dir src_tree); ("tests", File);
        ("docs", Dir [("_current_code_dir_structure_.md", File)])];
     StructureDoc.output_text := "old listing";
     StructureDoc.disk := StructureDoc.Accepts |}.

(** A project whose device fails when 40 characters are written. *)
Definition failing_disk_project : StructureDoc.world :=
  {| StructureDoc.parent_dir :=
       [("src", Dir src_tree);
        ("docs", Dir [("_current_code_dir_structure_.md", File)])];
     StructureDoc.output_text := "old listing";
     StructureDoc.disk := StructureDoc.FailsAfter 40 |}.

End MoreRuns.

Import MoreRuns.

Lemma malformed_launch_file_aborts_witness :
  Launch.run broken_text = (Raise JSONDecodeError, broken_text).
Proof.
  apply (malformed_launch_file_aborts broken_text not_json); reflexivity.
Defined.

Lemma non_object_configuration_aborts_witness :
  Launch.run (on_disk (launch_json mixed_configurations)
                      (Some (Dir [("App.exe", File)])))
  = (Raise AttributeError,
     on_disk (launch_json mixed_configurations) (Some (Dir [("App.exe", File)]))).
Proof.
  apply (non_object_configuration_aborts
           (on_disk (launch_json mixed_configurations)
                    (Some (Dir [("App.exe", File)])))
           (Some (launch_json mixed_configurations))
           [("version", JStr "0.2.0");
            ("configurations", JArr mixed_configurations)]
           mixed_configurations); try reflexivity.
  exists (JStr "Debug App.exe"). split; [right; now left | reflexivity].
Defined.

Lemma build_path_not_a_directory_aborts_witness :
  Launch.run build_is_a_file = (Raise NotADirectoryError, build_is_a_file).
Proof.
  apply (build_path_not_a_directory_aborts build_is_a_file
           (launch_json [unrelated_config]) [unrelated_config] File);
    reflexivity.
Defined.

Lemma other_keys_survive_witness :
  exists fields fields',
    Launch.load_data custom_world = Ok (JObj fields) /\
    Launch.launch_file custom_after = Some (json_dump (JObj fields')) /\
    map fst fields' = map fst fields /\
    forall k, k <> "configurations" -> dict_get k fields' = dict_get k fields.
Proof.
  apply (other_keys_survive custom_world custom_after). reflexivity.
Defined.

Lemma synthesized_configs_distinct_witness :
  NoDup (Launch.test_configs
           (Launch.test_executables (Dir mixed_dir) (map fst mixed_dir))).
Proof.
  apply (synthesized_configs_distinct mixed_dir). reflexivity.
Defined.

Lemma synthesized_config_is_stale_witness :
  field (Launch.make_config "App.exe") "program"
  = Some (JStr ("${workspaceFolder}/build/AthenaTests/"
                ++ replace Launch.backslash Launch.slash "App.exe")) /\
  Launch.keeps (Launch.make_config "App.exe") = Ok false.
Proof.
  apply (synthesized_config_is_stale "App.exe"). reflexivity.
Defined.

Lemma is_test_program_ignores_case_and_separators_witness :
  Launch.is_test_program (JStr "C:\Proj\BUILD\ATHENATESTS\T.exe")
  = Launch.is_test_program (JStr "c:\proj\build\athenatests\t.exe").
Proof.
  apply (is_test_program_ignores_case_and_separators
           "C:\Proj\BUILD\ATHENATESTS\T.exe" "c:\proj\build\athenatests\t.exe").
  left. reflexivity.
Defined.

Lemma test_executables_are_exe_files_witness :
  In "Tests.exe" (Launch.test_executables (Dir mixed_dir) (map fst mixed_dir)) <->
  In ("Tests.exe", File) mixed_dir /\
  exists stem, "Tests.exe" = (stem ++ ".exe")%string.
Proof.
  apply (test_executables_are_exe_files mixed_dir "Tests.exe"). reflexivity.
Defined.

Lemma later_run_forgets_earlier_directory_witness :
  exists w2,
    Launch.run (with_build_path scenario_world (Some (Dir later_dir)))
    = (Ok tt, w2) /\
    Launch.run (with_build_path scenario_after (Some (Dir later_dir)))
    = (Ok tt, w2).
Proof.
  apply (later_run_forgets_earlier_directory scenario_world scenario_after later_dir).
  - intros dir H. injection H as <-. reflexivity.
  - intros d _. reflexivity.
  - reflexivity.
Defined.

Lemma lines_render_entries_at_depth_witness :
  In ">   - detail/"
     [ "> - Zeta.txt"; "> - core/"; ">   - a.cpp"; ">   - b.h";
       ">   - detail/"; "> - main.cpp" ] <->
  exists k name n,
    entry_at src_tree k name n /\
    ">   - detail/" = ("> " ++ StructureDoc.indent k ++ "- " ++ name
                         ++ (if isdir (Some n) then "/" else ""))%string.
Proof.
  apply (lines_render_entries_at_depth src_tree "> "
           [ "> - Zeta.txt"; "> - core/"; ">   - a.cpp"; ">   - b.h";
             ">   - detail/"; "> - main.cpp" ]); reflexivity.
Defined.

Lemma one_line_per_entry_witness :
  List.length [ "- Zeta.txt"; "- core/"; "  - a.cpp"; "  - b.h";
                "  - detail/"; "- main.cpp" ]
  = entry_count (Dir src_tree).
Proof.
  apply (one_line_per_entry src_tree ""); reflexivity.
Defined.

Lemma listing_ignores_listdir_order_witness :
  StructureDoc.generate_file_structure (Dir src_tree) ""
  = StructureDoc.generate_file_structure (Dir src_tree_reordered) "".
Proof.
  apply (listing_ignores_listdir_order (Dir src_tree) (Dir src_tree_reordered) "").
  - apply same_dir.
    apply same_trans with
      [ ("main.cpp", File); ("Zeta.txt", File);
        ("core", Dir [("a.cpp", File); ("b.h", File); ("detail", Dir [])]) ].
    + apply same_skip; [constructor|].
      apply same_trans with
        [ ("Zeta.txt", File);
          ("core", Dir [("a.cpp", File); ("b.h", File); ("detail", Dir [])]) ].
      * apply same_trans with
          [ ("core", Dir [("a.cpp", File); ("b.h", File); ("detail", Dir [])]);
            ("Zeta.txt", File) ].
        -- apply same_skip; [|repeat constructor].
           apply same_dir. apply same_swap. repeat constructor.
        -- apply same_swap. constructor.
      * repeat constructor.
    + apply same_swap. repeat constructor.
  - reflexivity.
Defined.

Example blocked_project_fails :
  StructureDoc.main blocked_project = (Raise NotADirectoryError, blocked_project).
Proof. reflexivity. Qed.

Example failing_disk_leaves_a_prefix :
  exists w',
    StructureDoc.main failing_disk_project = (Raise OSError, w') /\
    StructureDoc.output_file w'
    = Some ("# Current Code Directory Structure" ++ String "010" ""
            ++ String "010" "" ++ "## `")%string.
Proof. eexists. split; reflexivity. Qed.

Example mixed_dir_executables :
  Launch.test_executables (Dir mixed_dir) (map fst mixed_dir)
  = ["App.exe"; "Tests.exe"].
Proof. reflexivity. Qed.

(* ================================================================== *)
(** ** The launch-configuration synchronizer: two more edges *)
(* ================================================================== *)

Section LaunchEdges.

Context {J : JsonModule}.

Import Launch.

(** X18.  The test is a substring test: a [program] that holds the text of
    the build-output directory anywhere, also inside a longer directory
    name, is classified as stale. *)
Theorem is_test_program_matches_anywhere (pre post : string) :
  is_test_program (JStr (pre ++ build_dir ++ post)) = true.
Proof.
  apply is_test_program_iff. eexists. split; [reflexivity|].
  unfold lower, replace. rewrite !map_chars_app.
  eexists. eexists. reflexivity.
Qed.

(** X19.  A [configurations] value that is [null], a boolean or a number
    has no length: the run raises [TypeError] while it reports the number of
    loaded configurations, and nothing is written. *)
Theorem unsized_configurations_abort
    (w : world) (t : text) fields (v : json) :
  launch_file w = Some t ->
  json_load t = Some (JObj fields) ->
  dict_get "configurations" fields = Some v ->
  v = JNull \/ (exists b, v = JBool b) \/ (exists z, v = JInt z) \/
  (exists x, v = JFloat x) ->
  run w = (Raise TypeError, w).
Proof.
  intros Ht Hl Hc Hv. unfold run, new_data, load_data, load.
  rewrite Ht, Hl. cbn [bind py_get]. rewrite Hc.
  destruct Hv as [->|[[b ->]|[[z ->]|[x ->]]]]; reflexivity.
Qed.

End LaunchEdges.

Lemma unsized_configurations_abort_witness :
  Launch.run (on_disk (JObj [("version", JStr "0.2.0"); ("configurations", JNull)])
                      (Some (Dir [("App.exe", File)])))
  = (Raise TypeError,
     on_disk (JObj [("version", JStr "0.2.0"); ("configurations", JNull)])
             (Some (Dir [("App.exe", File)]))).
Proof.
  apply (unsized_configurations_abort
           (on_disk (JObj [("version", JStr "0.2.0"); ("configurations", JNull)])
                    (Some (Dir [("App.exe", File)])))
           (Some (JObj [("version", JStr "0.2.0"); ("configurations", JNull)]))
           [("version", JStr "0.2.0"); ("configurations", JNull)]
           JNull); try reflexivity.
  now left.
Defined.

Example longer_directory_name_is_stale :
  Launch.is_test_program (JStr "${workspaceFolder}/rebuild/AthenaTestsuite/x.exe")
  = true.
Proof. reflexivity. Qed.
